(** * SPMS backend: accounts, projects, invoices and uploads

    A shallow embedding of the request handlers of the student project
    management backend (routes/authRoutes.js, routes/studentRoutes.js) over
    the two collections declared in models/User.js and models/Project.js.

    Conventions of the embedding.
    - A JavaScript value is a [JSValue]; a request body and an embedded
      invoice are objects with string keys, [gmap string JSValue]; reading
      a property that is not there gives [JUndefined].
    - A number is an IEEE 754 double: a [spec_float] of the standard
      library, with the 53 bits of precision and the exponent range of
      binary64, so that a sum is the rounded sum of the standard. Strings
      are byte strings, so that [toLowerCase] acts on the ASCII letters.
    - A collection is the list of its documents in insertion order. The
      fields a handler assigns from the request keep the assigned value,
      except for the embedded invoice, which is cast to the paths that
      the schema declares. Identifiers are strings; the documents of a
      collection have identifiers that are well formed, and looking up a
      malformed one fails with the cast error of the store.
    - What the handlers call but do not define (the conversions between
      strings and numbers, bcrypt, JWT signing, the identifiers, and
      whether the store accepts a write) is the interface [Platform];
      every handler is written over an arbitrary platform, and
      [reference] is a small executable one.
    - The timestamps and the version key that the store maintains by
      itself carry no logic in the handlers and are left out of the
      records. *)

From Stdlib Require Import ZArith String Ascii List Bool Lia.
From Stdlib Require Floats.SpecFloat.
From stdpp Require Import gmap strings list fin_maps pretty.

Local Open Scope string_scope.
Local Open Scope Z_scope.

(** ** JavaScript values *)

(** A number is a double. [Num z] is the double nearest to the integer
    [z], which is [z] itself up to 2^53. *)
Definition Number : Type := SpecFloat.spec_float.

Definition NaN : Number := SpecFloat.S754_nan.

Definition Num (z : Z) : Number := SpecFloat.binary_normalize 53 1024 z 0 false.

Arguments Num : simpl never.

Inductive JSValue :=
  | JUndefined
  | JNull
  | JBool (b : bool)
  | JNum (n : Number)
  | JStr (s : string).

#[global] Instance Number_eq_dec : EqDecision Number.
Proof. unfold Number. solve_decision. Defined.

#[global] Instance JSValue_eq_dec : EqDecision JSValue.
Proof. solve_decision. Defined.

Abbreviation JSObject := (gmap string JSValue).

(** [o.k] *)
Definition get (o : JSObject) (k : string) : JSValue :=
  default JUndefined (o !! k).

(** ToBoolean: [undefined], [null], [false], [NaN], [0] and [''] are
    falsy. *)
Definition truthy (v : JSValue) : bool :=
  match v with
  | JUndefined | JNull => false
  | JBool b => b
  | JNum (SpecFloat.S754_nan | SpecFloat.S754_zero _) => false
  | JNum _ => true
  | JStr s => negb (String.eqb s "")
  end.

(** [a || b] *)
Definition js_or (a b : JSValue) : JSValue := if truthy a then a else b.

(** [v !== undefined] *)
Definition defined (v : JSValue) : bool := bool_decide (v ≠ JUndefined).

(** [a + b] on numbers: the sum of IEEE 754, rounded to the nearest
    double. *)
Definition add (a b : Number) : Number := SpecFloat.SFadd 53 1024 a b.

Arguments add : simpl never.

(** A number that is neither [NaN] nor an infinity. *)
Definition finite (n : Number) : bool :=
  match n with
  | SpecFloat.S754_finite _ _ _ | SpecFloat.S754_zero _ => true
  | _ => false
  end.

(** [n || d] on numbers, as in [Number(x) || 0]. *)
Definition or_number (n d : Number) : Number :=
  if truthy (JNum n) then n else d.

(** [v.length]: reading a property of [undefined] or [null] throws a
    TypeError (the outer [None]); a string has its length, a number or a
    boolean has no such property (the inner [None], for [undefined]). *)
Definition length_of (v : JSValue) : option (option nat) :=
  match v with
  | JUndefined | JNull => None
  | JStr s => Some (Some (String.length s))
  | JBool _ | JNum _ => Some None
  end.

(** [len < k] for a length and a natural number: [undefined] converts to
    [NaN], and every comparison with [NaN] is false. *)
Definition shorter (len : option nat) (k : nat) : bool :=
  match len with
  | Some n => (n <? k)%nat
  | None => false
  end.

(** [s.toLowerCase()] *)
Definition lower (c : ascii) : ascii :=
  let n := N_of_ascii c in
  if ((65 <=? n) && (n <=? 90))%N then ascii_of_N (n + 32) else c.

Fixpoint toLowerCase (s : string) : string :=
  match s with
  | EmptyString => EmptyString
  | String c rest => String (lower c) (toLowerCase rest)
  end.

(** [hay.includes(needle)], which is also what an unanchored regular
    expression made of literal alternatives tests for each of them. *)
Fixpoint includes (needle hay : string) : bool :=
  String.prefix needle hay ||
  match hay with
  | EmptyString => false
  | String _ rest => includes needle rest
  end.

(** ** path.extname (POSIX)

    The scan of Node's [path.extname], from the last character to the
    first: [extname_scan path n st] has the characters at indices below
    [n] still to read. *)

Record ExtScan := mkExtScan {
  startDot : Z;
  startPart : Z;
  endPos : Z;
  matchedSlash : bool;
  preDotState : Z
}.

Definition ext_init : ExtScan := mkExtScan (-1) 0 (-1) true 0.

Fixpoint extname_scan (path : string) (n : nat) (st : ExtScan) : ExtScan :=
  match n with
  | O => st
  | S i =>
    match String.get i path with
    | None => st
    | Some code =>
      if Ascii.eqb code "/" then
        if negb (matchedSlash st)
        then mkExtScan (startDot st) (Z.of_nat i + 1) (endPos st)
                       (matchedSlash st) (preDotState st)
        else extname_scan path i st
      else
        let st1 :=
          if endPos st =? -1
          then mkExtScan (startDot st) (startPart st) (Z.of_nat i + 1)
                         false (preDotState st)
          else st in
        let st2 :=
          if Ascii.eqb code "."
          then
            if startDot st1 =? -1
            then mkExtScan (Z.of_nat i) (startPart st1) (endPos st1)
                           (matchedSlash st1) (preDotState st1)
            else if negb (preDotState st1 =? 1)
            then mkExtScan (startDot st1) (startPart st1) (endPos st1)
                           (matchedSlash st1) 1
            else st1
          else if negb (startDot st1 =? -1)
          then mkExtScan (startDot st1) (startPart st1) (endPos st1)
                         (matchedSlash st1) (-1)
          else st1 in
        extname_scan path i st2
    end
  end.

Definition extname (path : string) : string :=
  let st := extname_scan path (String.length path) ext_init in
  if (startDot st =? -1) || (endPos st =? -1) || (preDotState st =? 0) ||
     ((preDotState st =? 1) && (startDot st =? endPos st - 1) &&
      (startDot st =? startPart st + 1))
  then ""
  else substring (Z.to_nat (startDot st))
                 (Z.to_nat (endPos st - startDot st)) path.

(** ** The collections

    models/User.js and models/Project.js. A reference to a document is the
    string of its identifier; a path that was never assigned is
    [JUndefined]. *)

Definition ObjectId := string.

Inductive Role := developer | student.

#[global] Instance Role_eq_dec : EqDecision Role.
Proof. solve_decision. Defined.

Module User.

Record t := mk {
  _id : ObjectId;
  name : JSValue;
  username : JSValue;
  password : JSValue;
  role : Role;
  documentPath : JSValue;
  pdfPath : JSValue;
  zipPath : JSValue;
  videoPath : JSValue;
  assignedDeveloper : JSValue
}.

#[global] Instance eq_dec : EqDecision t.
Proof. solve_decision. Defined.

(** [User.findById(id)] *)
Definition findById (id : ObjectId) (us : list t) : option t :=
  List.find (λ u, bool_decide (_id u = id)) us.

(** [User.findOne({ username })]. The query casts the value to a string
    before it compares; for a value that is a string the comparison is
    this one. *)
Definition findOne_username (v : JSValue) (us : list t) : option t :=
  List.find (λ u, bool_decide (username u = v)) us.

(** [User.find({ role: 'student', assignedDeveloper: dev })] *)
Definition find_students (dev : ObjectId) (us : list t) : list t :=
  filter (λ u, role u = student ∧ assignedDeveloper u = JStr dev) us.

(** [User.find({ role: 'developer' })] *)
Definition find_developers (us : list t) : list t :=
  filter (λ u, role u = developer) us.

(** The write of [save()] on a document that was read from the
    collection: the document with that identifier is replaced. *)
Fixpoint replace (u : t) (us : list t) : list t :=
  match us with
  | [] => []
  | v :: rest =>
    if decide (_id v = _id u) then u :: rest else v :: replace u rest
  end.

Definition set_password (v : JSValue) (u : t) : t :=
  mk (_id u) (name u) (username u) v (role u) (documentPath u)
     (pdfPath u) (zipPath u) (videoPath u) (assignedDeveloper u).

Definition set_documentPath (v : JSValue) (u : t) : t :=
  mk (_id u) (name u) (username u) (password u) (role u) v
     (pdfPath u) (zipPath u) (videoPath u) (assignedDeveloper u).

Definition set_pdfPath (v : JSValue) (u : t) : t :=
  mk (_id u) (name u) (username u) (password u) (role u) (documentPath u)
     v (zipPath u) (videoPath u) (assignedDeveloper u).

Definition set_zipPath (v : JSValue) (u : t) : t :=
  mk (_id u) (name u) (username u) (password u) (role u) (documentPath u)
     (pdfPath u) v (videoPath u) (assignedDeveloper u).

Definition set_videoPath (v : JSValue) (u : t) : t :=
  mk (_id u) (name u) (username u) (password u) (role u) (documentPath u)
     (pdfPath u) (zipPath u) v (assignedDeveloper u).

End User.

Module Project.

Record t := mk {
  _id : ObjectId;
  title : JSValue;
  description : JSValue;
  student : JSValue;
  submissionDate : JSValue;
  frontend : JSValue;
  backend : JSValue;
  database : JSValue;
  amount : JSValue;
  status : JSValue;
  invoiceDetails : option JSObject
}.

#[global] Instance eq_dec : EqDecision t.
Proof. solve_decision. Defined.

(** [Project.findById(id)] *)
Definition findById (id : ObjectId) (ps : list t) : option t :=
  List.find (λ p, bool_decide (_id p = id)) ps.

(** [Project.find({ student: id })] *)
Definition find_of_student (id : ObjectId) (ps : list t) : list t :=
  filter (λ p, student p = JStr id) ps.

(** [Project.find({ student: { $in: ids } })] *)
Definition find_of_students (ids : list ObjectId) (ps : list t) : list t :=
  filter (λ p, student p ∈ JStr <$> ids) ps.

Fixpoint replace (p : t) (ps : list t) : list t :=
  match ps with
  | [] => []
  | q :: rest =>
    if decide (_id q = _id p) then p :: rest else q :: replace p rest
  end.

Definition set_invoiceDetails (o : JSObject) (p : t) : t :=
  mk (_id p) (title p) (description p) (student p) (submissionDate p)
     (frontend p) (backend p) (database p) (amount p) (status p) (Some o).

End Project.

Record Store := mkStore {
  users : list User.t;
  projects : list Project.t
}.

Definition with_users (us : list User.t) (st : Store) : Store :=
  mkStore us (projects st).

Definition with_projects (ps : list Project.t) (st : Store) : Store :=
  mkStore (users st) ps.

Definition empty_store : Store := mkStore [] [].

(** ** What the handlers rely on

    [StringToNumber] is the conversion [Number] applies to a string and
    [NumberToString] the one [String] applies to a number; [bcrypt_hash]
    is [bcrypt.hash] with the salt of the call; [jwt_sign id now] is
    [jwt.sign] with the secret of the process, at the time [now], which
    the token records; [new_ObjectId] names the next document of a
    collection; [ObjectId_cast_error model id] is the message of the
    error with which a query of [model] refuses the string [id] as an
    identifier, [None] when [id] casts to one; [User_rejects d us] (and
    [Project_rejects]) is the error with which the store refuses to write
    the document [d] into the collection [us] (casting, the validators
    and the unique index of the schema), or [None] when it accepts. *)

Class Platform := {
  StringToNumber : string → Number;
  NumberToString : Number → string;
  bcrypt_hash : string → string;
  jwt_sign : ObjectId → Z → string;
  new_ObjectId : list ObjectId → ObjectId;
  ObjectId_cast_error : string → string → option string;
  User_rejects : User.t → list User.t → option string;
  Project_rejects : Project.t → list Project.t → option string
}.

(** ** Responses *)

#[local] Unset Elimination Schemes.

Inductive Json :=
  | JVal (v : JSValue)
  | JArr (items : list Json)
  | JObj (fields : list (string * Json)).

#[local] Set Elimination Schemes.

(** A value as [JSON.stringify] writes it: a number that is not finite
    is written [null], and a zero of either sign 0. *)
Definition written (j : Json) : Json :=
  match j with
  | JVal (JNum (SpecFloat.S754_zero _)) => JVal (JNum (Num 0))
  | JVal (JNum n) => if finite n then j else JVal JNull
  | _ => j
  end.

(** An object literal as [res.json] sends it: a property whose value is
    [undefined] is not serialised. *)
Definition obj (fields : list (string * Json)) : Json :=
  JObj (List.filter
          (λ kv, match kv.2 with JVal JUndefined => false | _ => true end)
          ((λ kv, (kv.1, written kv.2)) <$> fields)).

(** Whether a property named [k] occurs anywhere in a response body. *)
Fixpoint has_key (k : string) (j : Json) : bool :=
  match j with
  | JVal _ => false
  | JArr items => existsb (has_key k) items
  | JObj fields =>
    existsb (λ kv, String.eqb k kv.1 || has_key k kv.2) fields
  end.

(** How a handler ends: with a response, with an error handed to the
    framework ([cb(err)]), or with an exception that it throws outside
    every [try] of its own. *)
Inductive Outcome :=
  | Respond (status : nat) (body : Json)
  | NextError (err : string)
  | Uncaught (exn : string).

Definition message (status : nat) (msg : string) : Outcome :=
  Respond status (obj [("message", JVal (JStr msg))]).

(** ** Documents in a response *)

Definition Role_name (r : Role) : string :=
  match r with
  | developer => "developer"
  | student => "student"
  end.

(** [.populate('assignedDeveloper', 'name')]: the reference is replaced by
    the name of the user it points to, by [null] when there is none. *)
Definition populate_name (us : list User.t) (ref : JSValue) : Json :=
  match ref with
  | JStr id =>
    match User.findById id us with
    | Some d => obj [("_id", JVal (JStr (User._id d)));
                     ("name", JVal (User.name d))]
    | None => JVal JNull
    end
  | v => JVal v
  end.

(** A user document as JSON, with the stored password or without it
    ([.select('-password')]), and with [assigned] in the place of the
    reference to the developer. *)
Definition User_json (with_password : bool) (assigned : Json) (u : User.t)
  : Json :=
  obj ([("_id", JVal (JStr (User._id u)));
        ("name", JVal (User.name u));
        ("username", JVal (User.username u))] ++
       (if with_password then [("password", JVal (User.password u))] else []) ++
       [("role", JVal (JStr (Role_name (User.role u))));
        ("documentPath", JVal (User.documentPath u));
        ("pdfPath", JVal (User.pdfPath u));
        ("zipPath", JVal (User.zipPath u));
        ("videoPath", JVal (User.videoPath u));
        ("assignedDeveloper", assigned)]).

(** [res.json(user)] for a document as the store returned it. *)
Definition User_toJSON (u : User.t) : Json :=
  User_json true (JVal (User.assignedDeveloper u)) u.

(** [res.json] of a document read with [.select('-password')]. *)
Definition User_selected (u : User.t) : Json :=
  User_json false (JVal (User.assignedDeveloper u)) u.

(** ... and with [.populate('assignedDeveloper', 'name')] as well. *)
Definition User_populated (us : list User.t) (u : User.t) : Json :=
  User_json false (populate_name us (User.assignedDeveloper u)) u.

Definition JSObject_json (o : JSObject) : Json :=
  obj ((λ kv, (kv.1, JVal kv.2)) <$> map_to_list o).

Definition Project_toJSON (p : Project.t) : Json :=
  obj [("_id", JVal (JStr (Project._id p)));
       ("title", JVal (Project.title p));
       ("description", JVal (Project.description p));
       ("student", JVal (Project.student p));
       ("submissionDate", JVal (Project.submissionDate p));
       ("frontend", JVal (Project.frontend p));
       ("backend", JVal (Project.backend p));
       ("database", JVal (Project.database p));
       ("amount", JVal (Project.amount p));
       ("status", JVal (Project.status p));
       ("invoiceDetails",
        match Project.invoiceDetails p with
        | Some o => JSObject_json o
        | None => JVal JUndefined
        end)].

(** ** Uploads: the multer configuration of routes/studentRoutes.js *)

(** The part of a multipart request, and [req.file] once it is stored. *)
Record Upload := mkUpload {
  originalname : string;
  mimetype : string
}.

Record StoredFile := mkStoredFile {
  file_originalname : string;
  file_path : string
}.

(** [/zip|pdf|mp4|mov|avi|mkv/.test(s)] *)
Definition filetypes_test (s : string) : bool :=
  existsb (λ alt, includes alt s) ["zip"; "pdf"; "mp4"; "mov"; "avi"; "mkv"].

Definition only_allowed : string :=
  "Error: Only ZIP, PDF, and Video files are allowed!".

(** [fileFilter]: [None] is [cb(null, true)], [Some e] is [cb(e)]. *)
Definition fileFilter (file : Upload) : option string :=
  let extname := filetypes_test (toLowerCase (extname (originalname file))) in
  let mimetype := filetypes_test (mimetype file) in
  if extname then None else Some only_allowed.

(** [storage]: the file goes to [uploads/], named after the time of
    receipt, [now], and its original name. *)
Definition storage (now : Z) (file : Upload) : StoredFile :=
  mkStoredFile (originalname file)
               ("uploads/" ++ pretty now ++ "-" ++ originalname file).

(** ** Authorization *)

(** Modelled from the spec: middleware/authMiddleware.js ([protect],
    [authorizeDeveloper]) is not among the sources. Section 4.2: a bearer
    token resolves to a user, and the request fails with Unauthenticated
    when the token is missing or invalid or its user no longer exists; a
    valid token binds the identifier of its user and nothing else, so a
    token is modelled by the identifier it binds, [None] when it is
    missing or invalid. *)
Definition protect (token : option ObjectId) (st : Store) : option User.t :=
  match token with
  | Some id => User.findById id (users st)
  | None => None
  end.

(** Modelled from the spec: [requireDeveloper(identity)] fails with
    Forbidden unless [identity.role == developer]. *)
Definition authorizeDeveloper (identity : User.t) : bool :=
  bool_decide (User.role identity = developer).

(** Modelled from the spec: a route declared with [protect,
    authorizeDeveloper] before its handler; 401 and 403 are the statuses
    of Unauthenticated and Forbidden (section 7). *)
Definition developer_route
    (handler : User.t → Store → Outcome * Store)
    (token : option ObjectId) (st : Store) : Outcome * Store :=
  match protect token st with
  | None => (message 401 "Unauthenticated", st)
  | Some identity =>
    if authorizeDeveloper identity then handler identity st
    else (message 403 "Forbidden", st)
  end.

(** ** The handlers *)

Section Handlers.

Context `{platform : Platform}.

(** [Number(v)] *)
Definition ToNumber (v : JSValue) : Number :=
  match v with
  | JUndefined => NaN
  | JNull => Num 0
  | JBool b => Num (if b then 1 else 0)
  | JNum n => n
  | JStr s => StringToNumber s
  end.

(** *** What the schema does to an assigned value *)

(** The cast of a path declared [String]: [null] and [undefined] stay,
    every other value is written as a string. *)
Definition castString (v : JSValue) : JSValue :=
  match v with
  | JStr s => JStr s
  | JNum n => JStr (NumberToString n)
  | JBool b => JStr (if b then "true" else "false")
  | JNull => JNull
  | JUndefined => JUndefined
  end.

(** The cast of a path declared [Boolean]: [true], ['true'], [1], ['1']
    and ['yes'] are true; [false], ['false'], [0], ['0'] and ['no'] are
    false; [null] and [undefined] stay; everything else is a cast error
    ([None]). *)
Definition castBoolean (v : JSValue) : option JSValue :=
  match v with
  | JBool b => Some (JBool b)
  | JStr s =>
    if bool_decide (s ∈ ["true"; "1"; "yes"]) then Some (JBool true)
    else if bool_decide (s ∈ ["false"; "0"; "no"]) then Some (JBool false)
    else None
  | JNum n =>
    if bool_decide (n = Num 1) then Some (JBool true)
    else match n with
         | SpecFloat.S754_zero _ => Some (JBool false)
         | _ => None
         end
  | JNull => Some JNull
  | JUndefined => Some JUndefined
  end.

(** What a handler answers when [Model.findById(req.params.id)] gave it
    no document. The query casts the identifier first: one that does not
    cast makes it throw, and the [catch] of the handler answers 500 with
    the message of the error; one that casts and names no document gives
    [null], and the handler answers 404 with [msg]. (The documents of a
    collection have identifiers that cast, so that a lookup that finds
    one did not throw.) *)
Definition not_found (model : string) (id : ObjectId) (msg : string)
    (st : Store) : Outcome * Store :=
  match ObjectId_cast_error model id with
  | Some err => (message 500 err, st)
  | None => (message 404 msg, st)
  end.

(** *** models/User.js *)

(** The hook [UserSchema.pre('save')]: nothing when the password was
    not modified, otherwise the password is replaced by its hash. What
    the hook reads is the password as the schema cast it when it was
    assigned, a string for a number or a boolean; [bcrypt.hash] throws
    on what is not a string. *)
Definition pre_save (isModified_password : bool) (u : User.t)
  : option User.t :=
  if negb isModified_password then Some u
  else match castString (User.password u) with
       | JStr s => Some (User.set_password (JStr (bcrypt_hash s)) u)
       | _ => None
       end.

(** [User.create({ name, username, password, role, assignedDeveloper })]:
    the paths take the defaults of the schema. *)
Definition User_create (name username password : JSValue) (role : Role)
    (assignedDeveloper : JSValue) (st : Store) : string + User.t * Store :=
  let doc := User.mk (new_ObjectId (User._id <$> users st))
                     name username password role
                     (JStr "") (JStr "") (JStr "") (JStr "")
                     assignedDeveloper in
  match User_rejects doc (users st) with
  | Some err => inl err
  | None =>
    match pre_save true doc with
    | None => inl "Illegal arguments"
    | Some saved => inr (saved, with_users (users st ++ [saved]) st)
    end
  end.

(** [user.save()] on a document read from the collection. (A document
    that was stored without a path for which the schema has a default is
    read with the default, which [save()] then writes as well; the
    documents that the handlers create lack none.) *)
Definition User_save (isModified_password : bool) (u : User.t) (st : Store)
  : string + User.t * Store :=
  match User_rejects u (users st) with
  | Some err => inl err
  | None =>
    match pre_save isModified_password u with
    | None => inl "Illegal arguments"
    | Some saved => inr (saved, with_users (User.replace saved (users st)) st)
    end
  end.

(** *** models/Project.js *)

Definition if_defined (v d : JSValue) : JSValue :=
  if defined v then v else d.

(** The paths of the embedded invoice that the schema declares [String];
    the one other path is [isSent], a [Boolean]. *)
Definition invoice_strings : list string :=
  ["invoiceNo"; "date"; "companyName"; "companyAddress"; "title";
   "description"; "frontend"; "backend"; "database"; "amount";
   "paymentStatus"; "paymentMethod"; "signatory"].

(** The cast of one property of an object assigned to [invoiceDetails]:
    the schema is strict, a property that it does not declare is dropped
    ([None]). *)
Definition cast_invoice_path (k : string) (v : JSValue) : option JSValue :=
  if bool_decide (k ∈ invoice_strings) then Some (castString v)
  else if bool_decide (k = "isSent") then castBoolean v
  else None.

(** [project.invoiceDetails = o]: the embedded invoice becomes the
    declared properties of [o], each cast to its type; the paths that [o]
    does not have are left unset. [None] is the cast error of [isSent],
    with which [save()] then fails. *)
Definition cast_invoice (o : JSObject) : option JSObject :=
  match castBoolean (get o "isSent") with
  | Some _ => Some (map_imap cast_invoice_path o)
  | None => None
  end.

(** The defaults of the embedded invoice of a new project. *)
Definition invoice_defaults : JSObject :=
  <["paymentStatus" := JStr "Pending"]> (<["isSent" := JBool false]> ∅).

(** [Project.create({ ... })] *)
Definition Project_create
    (title description student submissionDate frontend backend database
     amount status : JSValue) (st : Store) : string + Project.t * Store :=
  let doc := Project.mk (new_ObjectId (Project._id <$> projects st))
                        title description student submissionDate
                        (if_defined frontend (JStr ""))
                        (if_defined backend (JStr ""))
                        (if_defined database (JStr ""))
                        (if_defined amount (JNum (Num 0)))
                        (if_defined status (JStr "Pending"))
                        (Some invoice_defaults) in
  match Project_rejects doc (projects st) with
  | Some err => inl err
  | None => inr (doc, with_projects (projects st ++ [doc]) st)
  end.

(** [project.save()] on a document read from the collection, with the
    same proviso on the defaults of the schema as for [User_save]. *)
Definition Project_save (p : Project.t) (st : Store)
  : string + Project.t * Store :=
  match Project_rejects p (projects st) with
  | Some err => inl err
  | None => inr (p, with_projects (Project.replace p (projects st)) st)
  end.

(** *** routes/authRoutes.js *)

(** POST /api/auth/register. The length of the password is read before
    the [try]: what it throws is caught by nothing. *)
Definition register (now : Z) (body : JSObject) (st : Store)
  : Outcome * Store :=
  let name := get body "name" in
  let username := get body "username" in
  let password := get body "password" in
  match length_of password with
  | None => (Uncaught "TypeError", st)
  | Some len =>
    if shorter len 8
    then (message 400 "Password must be at least 8 characters long", st)
    else
      match User.findOne_username username (users st) with
      | Some _ => (message 400 "User already exists", st)
      | None =>
        match User_create name username password developer JUndefined st with
        | inl err => (message 500 err, st)
        | inr (user, st') =>
          (Respond 201
             (obj [("_id", JVal (JStr (User._id user)));
                   ("name", JVal (User.name user));
                   ("username", JVal (User.username user));
                   ("role", JVal (JStr (Role_name (User.role user))));
                   ("token", JVal (JStr (jwt_sign (User._id user) now)))]),
           st')
        end
      end
  end.

(** GET /api/auth/developers *)
Definition get_developers (st : Store) : Outcome * Store :=
  (Respond 200 (JArr (User_selected <$> User.find_developers (users st))),
   st).

(** GET /api/auth/me *)
Definition get_me (identity : User.t) (st : Store) : Outcome * Store :=
  match User.findById (User._id identity) (users st) with
  | Some user => (Respond 200 (User_selected user), st)
  | None => (message 404 "User not found", st)
  end.

(** *** routes/studentRoutes.js *)

(** The assignments of PUT /api/students/:id to the document read. *)
Definition put_student_fields (body : JSObject) (user : User.t) : User.t :=
  User.mk (User._id user)
          (js_or (get body "name") (User.name user))
          (js_or (get body "username") (User.username user))
          (if truthy (get body "password") then get body "password"
           else User.password user)
          (User.role user)
          (if_defined (get body "documentPath") (User.documentPath user))
          (if_defined (get body "pdfPath") (User.pdfPath user))
          (if_defined (get body "zipPath") (User.zipPath user))
          (if_defined (get body "videoPath") (User.videoPath user))
          (js_or (get body "assignedDeveloper")
                 (User.assignedDeveloper user)).

(** PUT /api/students/:id. The password counts as modified when the
    assignment changed it. *)
Definition put_student (id : ObjectId) (body : JSObject) (st : Store)
  : Outcome * Store :=
  match User.findById id (users st) with
  | Some user =>
    let user' := put_student_fields body user in
    match User_save (bool_decide (User.password user' ≠ User.password user))
                    user' st with
    | inl err => (message 500 err, st)
    | inr (updatedUser, st') =>
      (Respond 200
         (obj [("_id", JVal (JStr (User._id updatedUser)));
               ("name", JVal (User.name updatedUser));
               ("username", JVal (User.username updatedUser));
               ("role", JVal (JStr (Role_name (User.role updatedUser))))]),
       st')
    end
  | None => not_found "User" id "User not found" st
  end.

(** The branch of POST /api/students/:id/upload on the extension. *)
Definition upload_fields (file : StoredFile) (user : User.t) : User.t :=
  let ext := toLowerCase (extname (file_originalname file)) in
  if decide (ext = ".pdf")
  then User.set_pdfPath (JStr (file_path file)) user
  else if decide (ext = ".zip")
  then User.set_zipPath (JStr (file_path file)) user
  else if bool_decide (ext ∈ [".mp4"; ".mov"; ".avi"; ".mkv"])
  then User.set_videoPath (JStr (file_path file)) user
  else User.set_documentPath (JStr (file_path file)) user.

(** The handler of POST /api/students/:id/upload, after multer:
    [req.file] is [undefined] when the request carried no file, and
    reading its name then throws inside the [try]. *)
Definition upload_handler (id : ObjectId) (file : option StoredFile)
    (st : Store) : Outcome * Store :=
  match User.findById id (users st) with
  | Some user =>
    match file with
    | None =>
      (message 500
         "Cannot read properties of undefined (reading 'originalname')", st)
    | Some f =>
      match User_save false (upload_fields f user) st with
      | inl err => (message 500 err, st)
      | inr (_, st') =>
        (Respond 200 (obj [("message", JVal (JStr "File uploaded successfully"));
                           ("path", JVal (JStr (file_path f)))]),
         st')
      end
    end
  | None => not_found "User" id "User not found" st
  end.

(** POST /api/students/:id/upload: [upload.single('document')], then
    the handler. *)
Definition upload (id : ObjectId) (now : Z) (part : option Upload)
    (st : Store) : Outcome * Store :=
  match part with
  | None => upload_handler id None st
  | Some file =>
    match fileFilter file with
    | Some err => (NextError err, st)
    | None => upload_handler id (Some (storage now file)) st
    end
  end.

(** POST /api/students *)
Definition post_student (identity : User.t) (body : JSObject) (st : Store)
  : Outcome * Store :=
  let name := get body "name" in
  let username := get body "username" in
  let password := get body "password" in
  match User.findOne_username username (users st) with
  | Some _ => (message 400 "Student already exists", st)
  | None =>
    match User_create name username password student
                      (JStr (User._id identity)) st with
    | inl err => (message 500 err, st)
    | inr (student', st') => (Respond 201 (User_toJSON student'), st')
    end
  end.

(** GET /api/students *)
Definition get_students (identity : User.t) (st : Store) : Outcome * Store :=
  let students := User.find_students (User._id identity) (users st) in
  (Respond 200 (JArr (User_populated (users st) <$> students)), st).

(** GET /api/students/stats/global *)
Record Stats := mkStats {
  totalStudents : nat;
  totalProjects : nat;
  totalRevenue : Number
}.

Definition globalStats (identity : User.t) (st : Store) : Stats :=
  let myStudents := User.find_students (User._id identity) (users st) in
  let studentIds := User._id <$> myStudents in
  let totalStudents := length studentIds in
  let projects := Project.find_of_students studentIds (projects st) in
  let totalProjects := length projects in
  let totalRevenue :=
    fold_left
      (λ acc curr,
         add acc (or_number (ToNumber (Project.amount curr)) (Num 0)))
      projects (Num 0) in
  mkStats totalStudents totalProjects totalRevenue.

Definition get_stats (identity : User.t) (st : Store) : Outcome * Store :=
  let s := globalStats identity st in
  (Respond 200
     (obj [("totalStudents", JVal (JNum (Num (Z.of_nat (totalStudents s)))));
           ("totalProjects", JVal (JNum (Num (Z.of_nat (totalProjects s)))));
           ("totalRevenue", JVal (JNum (totalRevenue s)))]),
   st).

(** POST /api/students/assign-project *)
Definition assign_project (body : JSObject) (st : Store) : Outcome * Store :=
  match Project_create (get body "title") (get body "description")
                       (get body "studentId") (get body "submissionDate")
                       (get body "frontend") (get body "backend")
                       (get body "database")
                       (JNum (ToNumber (get body "amount")))
                       (JStr "Pending") st with
  | inl err => (message 500 err, st)
  | inr (project, st') => (Respond 201 (Project_toJSON project), st')
  end.

(** GET /api/students/my-projects *)
Definition my_projects (identity : User.t) (st : Store) : Outcome * Store :=
  (Respond 200
     (JArr (Project_toJSON <$>
            Project.find_of_student (User._id identity) (projects st))),
   st).

(** GET /api/students/:id *)
Definition get_student (id : ObjectId) (st : Store) : Outcome * Store :=
  match User.findById id (users st) with
  | None => not_found "User" id "Student not found" st
  | Some student' =>
    let projects :=
      Project.find_of_student (User._id student') (projects st) in
    (Respond 200
       (obj [("student", User_populated (users st) student');
             ("projects", JArr (Project_toJSON <$> projects))]),
     st)
  end.

(** The assignments of PUT /api/students/project/:id. *)
Definition put_project_fields (body : JSObject) (project : Project.t)
  : Project.t :=
  Project.mk (Project._id project)
             (js_or (get body "title") (Project.title project))
             (js_or (get body "description") (Project.description project))
             (Project.student project)
             (js_or (get body "submissionDate")
                    (Project.submissionDate project))
             (js_or (get body "frontend") (Project.frontend project))
             (js_or (get body "backend") (Project.backend project))
             (js_or (get body "database") (Project.database project))
             (if defined (get body "amount")
              then JNum (ToNumber (get body "amount"))
              else Project.amount project)
             (js_or (get body "status") (Project.status project))
             (Project.invoiceDetails project).

(** The end of the three handlers that save a project. *)
Definition save_and_respond (project : Project.t) (st : Store)
  : Outcome * Store :=
  match Project_save project st with
  | inl err => (message 500 err, st)
  | inr (updatedProject, st') =>
    (Respond 200 (Project_toJSON updatedProject), st')
  end.

(** PUT /api/students/project/:id *)
Definition put_project (id : ObjectId) (body : JSObject) (st : Store)
  : Outcome * Store :=
  match Project.findById id (projects st) with
  | Some project => save_and_respond (put_project_fields body project) st
  | None => not_found "Project" id "Project not found" st
  end.

(** [project.invoiceDetails?.isSent] *)
Definition invoice_isSent (project : Project.t) : JSValue :=
  match Project.invoiceDetails project with
  | Some details => get details "isSent"
  | None => JUndefined
  end.

(** [project.invoiceDetails = details], then [project.save()] and the
    answer: the assignment casts [details] to the schema, and a value of
    [isSent] that does not cast makes the validation of [save()] fail
    (the two handlers assign [true], or what the document had, which is
    a Boolean in every document that the store wrote). *)
Definition save_invoice (details : JSObject) (project : Project.t)
    (st : Store) : Outcome * Store :=
  match cast_invoice details with
  | Some invoice =>
    save_and_respond (Project.set_invoiceDetails invoice project) st
  | None =>
    (message 500
       "Project validation failed: invoiceDetails.isSent: Cast to Boolean failed",
     st)
  end.

(** PUT /api/students/project/:id/save-bill *)
Definition save_bill (id : ObjectId) (body : JSObject) (st : Store)
  : Outcome * Store :=
  match Project.findById id (projects st) with
  | Some project =>
    save_invoice
      (<["isSent" := js_or (invoice_isSent project) (JBool false)]> body)
      project st
  | None => not_found "Project" id "Project not found" st
  end.

(** PUT /api/students/project/:id/send-bill *)
Definition send_bill (id : ObjectId) (body : JSObject) (st : Store)
  : Outcome * Store :=
  match Project.findById id (projects st) with
  | Some project =>
    save_invoice (<["isSent" := JBool true]> body) project st
  | None => not_found "Project" id "Project not found" st
  end.

(** *** Sequences of requests *)

(** The two invoice operations. *)
Inductive InvoiceOp :=
  | SaveDraft (id : ObjectId) (body : JSObject)
  | SendInvoice (id : ObjectId) (body : JSObject).

Definition invoice_step (op : InvoiceOp) (st : Store) : Store :=
  match op with
  | SaveDraft id body => (save_bill id body st).2
  | SendInvoice id body => (send_bill id body st).2
  end.

Definition invoice_run (ops : list InvoiceOp) (st : Store) : Store :=
  fold_left (λ st op, invoice_step op st) ops st.

(** The operations that write users: developer registration, student
    creation by [identity], and the update of the user [id]. *)
Inductive AccountOp :=
  | Register (now : Z) (body : JSObject)
  | CreateStudent (identity : User.t) (body : JSObject)
  | UpdateStudent (id : ObjectId) (body : JSObject).

Definition account_step (op : AccountOp) (st : Store) : Store :=
  match op with
  | Register now body => (register now body st).2
  | CreateStudent identity body => (post_student identity body st).2
  | UpdateStudent id body => (put_student id body st).2
  end.

Definition account_run (ops : list AccountOp) (st : Store) : Store :=
  fold_left (λ st op, account_step op st) ops st.

End Handlers.

(** ** A reference platform

    Executable stand-ins for what the platform provides, used to run the
    handlers on concrete requests. The store of [reference] enforces what
    the two schemas declare: the required strings, the unique username,
    the enumeration of the status, a number for the amount. Its
    identifiers are the words of letters and digits, of any length (an
    ObjectId is written with 24 hexadecimal digits). *)

Definition is_space (c : ascii) : bool :=
  bool_decide (N_of_ascii c ∈ [32; 9; 10; 11; 12; 13]%N).

Definition digit_of (c : ascii) : option Z :=
  let n := N_of_ascii c in
  if ((48 <=? n) && (n <=? 57))%N then Some (Z.of_N n - 48) else None.

Fixpoint digits_value (acc : Z) (cs : list ascii) : option Z :=
  match cs with
  | [] => Some acc
  | c :: rest =>
    match digit_of c with
    | Some d => digits_value (10 * acc + d) rest
    | None => None
    end
  end.

Definition trim (cs : list ascii) : list ascii :=
  let drop := fix drop (l : list ascii) : list ascii :=
    match l with
    | c :: rest => if is_space c then drop rest else l
    | [] => []
    end in
  rev (drop (rev (drop cs))).

(** The integer literals in decimal, with blanks around and a sign; the
    empty string converts to 0. Everything else is [NaN] here: the
    literals with a fraction, an exponent or a radix prefix are not read
    by this platform. *)
Definition reference_StringToNumber (s : string) : Number :=
  match trim (list_ascii_of_string s) with
  | [] => Num 0
  | c :: rest =>
    let '(negative, body) :=
      if Ascii.eqb c "-" then (true, rest)
      else if Ascii.eqb c "+" then (false, rest)
      else (false, c :: rest) in
    match body with
    | [] => NaN
    | _ => match digits_value 0 body with
           | Some v => if negative then SpecFloat.SFopp (Num v) else Num v
           | None => NaN
           end
    end
  end.

(** The digits of the fraction [r / 10 ^ k], without the zeros at the
    end. *)
Fixpoint drop_zeros (cs : list ascii) : list ascii :=
  match cs with
  | c :: rest => if Ascii.eqb c "0" then drop_zeros rest else cs
  | [] => []
  end.

Definition fraction_digits (r : Z) (k : nat) : string :=
  let digits := list_ascii_of_string (pretty r) in
  let padded := (replicate (k - length digits) "0"%char ++ digits)%list in
  string_of_list_ascii (rev (drop_zeros (rev padded))).

(** A number in decimal, with every digit of its fraction: this is how
    JavaScript writes the integers below 10^21 and the fractions of at
    most 15 significant digits. *)
Definition reference_NumberToString (n : Number) : string :=
  match n with
  | SpecFloat.S754_nan => "NaN"
  | SpecFloat.S754_infinity s => if s then "-Infinity" else "Infinity"
  | SpecFloat.S754_zero _ => "0"
  | SpecFloat.S754_finite s m e =>
    (if s then "-" else "") ++
    (if 0 <=? e then pretty (Z.pos m * 2 ^ e)
     else
       let d := 2 ^ (- e) in
       let r := Z.pos m mod d in
       if r =? 0 then pretty (Z.pos m / d)
       else pretty (Z.pos m / d) ++ "." ++
            fraction_digits (r * 5 ^ (- e)) (Z.to_nat (- e)))
  end.

Definition is_alphanumeric (c : ascii) : bool :=
  let n := N_of_ascii c in
  ((48 <=? n) && (n <=? 57) || (65 <=? n) && (n <=? 90) ||
   (97 <=? n) && (n <=? 122))%N.

Definition reference_isValid (s : string) : bool :=
  negb (String.eqb s "") && forallb is_alphanumeric (list_ascii_of_string s).

Definition quoted (s : string) : string :=
  String (ascii_of_nat 34) (s ++ String (ascii_of_nat 34) EmptyString).

Definition reference_cast_error (model id : string) : option string :=
  if reference_isValid id then None
  else Some ("Cast to ObjectId failed for value " ++ quoted id ++
             " (type string) at path " ++ quoted "_id" ++
             " for model " ++ quoted model).

Definition nonempty_string (v : JSValue) : bool :=
  match v with
  | JStr s => negb (String.eqb s "")
  | _ => false
  end.

Definition string_or_unset (v : JSValue) : bool :=
  match v with
  | JStr _ | JNull | JUndefined => true
  | _ => false
  end.

Definition reference_User_rejects (u : User.t) (us : list User.t)
  : option string :=
  if negb (nonempty_string (User.name u) &&
           nonempty_string (User.username u) &&
           nonempty_string (User.password u) &&
           string_or_unset (User.documentPath u) &&
           string_or_unset (User.pdfPath u) &&
           string_or_unset (User.zipPath u) &&
           string_or_unset (User.videoPath u) &&
           string_or_unset (User.assignedDeveloper u))
  then Some "User validation failed"
  else if existsb (λ v, bool_decide (User.username v = User.username u) &&
                        negb (bool_decide (User._id v = User._id u))) us
  then Some "E11000 duplicate key error"
  else None.

Definition statuses : list string :=
  ["Pending"; "Process"; "Start"; "Backend Work"; "Frontend Work";
   "Database Work"; "Completed"].

Definition reference_Project_rejects (p : Project.t) (ps : list Project.t)
  : option string :=
  if nonempty_string (Project.title p) &&
     nonempty_string (Project.description p) &&
     nonempty_string (Project.student p) &&
     nonempty_string (Project.submissionDate p) &&
     string_or_unset (Project.frontend p) &&
     string_or_unset (Project.backend p) &&
     string_or_unset (Project.database p) &&
     match Project.amount p with
     | JNum n => negb (bool_decide (n = NaN))
     | JNull | JUndefined => true
     | _ => false
     end &&
     match Project.status p with
     | JStr s => bool_decide (s ∈ statuses)
     | _ => false
     end
  then None
  else Some "Project validation failed".

Definition reference : Platform := {|
  StringToNumber := reference_StringToNumber;
  NumberToString := reference_NumberToString;
  bcrypt_hash := λ s, "$2a$10$" ++ s;
  jwt_sign := λ id now, "jwt." ++ id ++ "." ++ pretty now;
  new_ObjectId := λ ids, "id" ++ pretty (length ids);
  ObjectId_cast_error := reference_cast_error;
  User_rejects := reference_User_rejects;
  Project_rejects := reference_Project_rejects
|}.

(** ** Example data

    Two developers; two students of the first and one of the second; the
    projects of the first developer's students have the amounts 100,
    ["abc"], [null] and 50, and the invoice of the last one was sent. *)

Definition demo_user (id name : string) (role : Role) (assigned : JSValue)
  : User.t :=
  User.mk id (JStr name) (JStr (toLowerCase name)) (JStr ("$2a$10$" ++ name))
          role (JStr "") (JStr "") (JStr "") (JStr "") assigned.

Definition dev1 : User.t := demo_user "d1" "Dana" developer JUndefined.
Definition dev2 : User.t := demo_user "d2" "Eli" developer JUndefined.
Definition stu1 : User.t := demo_user "s1" "Sam" student (JStr "d1").
Definition stu2 : User.t := demo_user "s2" "Sue" student (JStr "d1").
Definition stu3 : User.t := demo_user "s3" "Sid" student (JStr "d2").

Definition demo_project (id owner : string) (amount : JSValue)
    (invoice : option JSObject) : Project.t :=
  Project.mk id (JStr "Shop") (JStr "A web shop") (JStr owner)
             (JStr "2026-01-31") (JStr "React") (JStr "Express")
             (JStr "MongoDB") amount (JStr "Pending") invoice.

Definition sent_invoice : JSObject :=
  <["invoiceNo" := JStr "INV-7"]> (<["isSent" := JBool true]> ∅).

Definition pro1 : Project.t :=
  demo_project "p1" "s1" (JNum (Num 100)) None.
Definition pro2 : Project.t :=
  demo_project "p2" "s1" (JStr "abc") None.
Definition pro3 : Project.t :=
  demo_project "p3" "s2" JNull None.
Definition pro4 : Project.t :=
  demo_project "p4" "s2" (JNum (Num 50)) (Some sent_invoice).
Definition pro5 : Project.t :=
  demo_project "p5" "s3" (JNum (Num 999)) None.

Definition demo_store : Store :=
  mkStore [dev1; dev2; stu1; stu2; stu3] [pro1; pro2; pro3; pro4; pro5].

Definition draft_invoice : JSObject :=
  <["invoiceNo" := JStr "INV-8"]> (<["isSent" := JBool false]> ∅).

(** Request bodies and uploads, and two times of request, ten minutes
    apart. *)

Definition t0 : Z := 1700000000000.

Definition t1 : Z := 1700000000000 + 600000.

Definition new_student : JSObject :=
  <["name" := JStr "Nina"]>
    (<["username" := JStr "nina"]> (<["password" := JStr "secret123"]> ∅)).

Definition new_developer : JSObject :=
  <["name" := JStr "Dana"]>
    (<["username" := JStr "dana"]> (<["password" := JStr "password1"]> ∅)).

Definition no_password : JSObject :=
  <["name" := JStr "Dana"]> (<["username" := JStr "dana"]> ∅).

Definition self_assigned : JSObject :=
  <["assignedDeveloper" := JStr "id0"]> ∅.

Definition renamed : JSObject := <["name" := JStr "Samuel"]> ∅.


Definition report_pdf : Upload := mkUpload "report.pdf" "application/pdf".

Definition report_pdfx : Upload :=
  mkUpload "report.pdfx" "application/octet-stream".

Definition report_exe : Upload := mkUpload "report.exe" "application/pdf".

Definition clip_mp4 : Upload := mkUpload "clip.mp4" "video/mp4".

(** An invoice with a number where the schema has a string, and with a
    property that the schema does not declare. *)
Definition noted_invoice : JSObject :=
  <["invoiceNo" := JStr "INV-9"]>
    (<["amount" := JNum (Num 250)]> (<["note" := JStr "urgent"]> ∅)).

(** A project as POST /api/students/assign-project creates it, and a
    store that has it. *)
Definition pro6 : Project.t :=
  demo_project "p6" "s1" (JNum (Num 75)) (Some invoice_defaults).

Definition billing_store : Store := mkStore [dev1; stu1] [pro6].

(** 12.5, and 2^53, above which the doubles are 2 or more apart. *)
Definition twelve_and_a_half : Number :=
  SpecFloat.SFdiv 53 1024 (Num 25) (Num 2).

Definition two_to_the_53 : Number := Num (2 ^ 53).

(** ** Routes and statements about them *)

Section Specification.

Context `{platform : Platform}.

(** The three routes on one record by its identifier, behind
    [protect, authorizeDeveloper]. *)
Definition GET_student (token : option ObjectId) (id : ObjectId)
  : Store → Outcome * Store :=
  developer_route (λ _, get_student id) token.

Definition PUT_student (token : option ObjectId) (id : ObjectId)
    (body : JSObject) : Store → Outcome * Store :=
  developer_route (λ _, put_student id body) token.

Definition PUT_project (token : option ObjectId) (id : ObjectId)
    (body : JSObject) : Store → Outcome * Store :=
  developer_route (λ _, put_project id body) token.

Definition status_of (o : Outcome) : option nat :=
  match o with
  | Respond status _ => Some status
  | _ => None
  end.

Definition body_of (o : Outcome) : Json :=
  match o with
  | Respond _ body => body
  | _ => JVal JUndefined
  end.

(** [r] is the outcome of a handler that submits the project [p'], read
    under [id], to the store [st]: refused, the error is reported and
    nothing changes; accepted, [p'] is sent back and is what [id] now
    names, the rest of the store being as before. *)
Definition submits_project (id : ObjectId) (p' : Project.t) (st : Store)
    (r : Outcome * Store) : Prop :=
  match Project_rejects p' (projects st) with
  | Some err => r = (message 500 err, st)
  | None =>
    r.1 = Respond 200 (Project_toJSON p') ∧
    users r.2 = users st ∧
    Project.findById id (projects r.2) = Some p' ∧
    ∀ id', id' ≠ id →
      Project.findById id' (projects r.2) = Project.findById id' (projects st)
  end.

(** The same for a user read under [id]: the store is asked to accept
    [u'], and what it then holds is [saved], which is [u'] but for the
    password when the hook hashed it. *)
Definition submits_user (id : ObjectId) (u' saved : User.t) (st : Store)
    (r : Outcome * Store) : Prop :=
  match User_rejects u' (users st) with
  | Some err => r = (message 500 err, st)
  | None =>
    status_of r.1 = Some 200%nat ∧
    projects r.2 = projects st ∧
    User.findById id (users r.2) = Some saved ∧
    ∀ id', id' ≠ id →
      User.findById id' (users r.2) = User.findById id' (users st)
  end.

(** The project that [id] names has an invoice marked as sent. *)
Definition sent (id : ObjectId) (st : Store) : Prop :=
  ∃ p, Project.findById id (projects st) = Some p ∧
       invoice_isSent p = JBool true.

(** The revenue of section 4.4, in the words of the specification: each
    amount coerced to a number, what is not a number counting for zero
    (as a zero of either sign does), and the sum of these over the
    projects, taken from 0 in the order of the collection, each sum
    rounded as the language rounds it. *)
Definition revenue_of (amount : JSValue) : Number :=
  match ToNumber amount with
  | SpecFloat.S754_nan | SpecFloat.S754_zero _ => Num 0
  | n => n
  end.

Definition sum_amounts (amounts : list JSValue) : Number :=
  fold_left (λ acc amount, add acc (revenue_of amount)) amounts (Num 0).

Definition sum_revenue (ps : list Project.t) : Number :=
  sum_amounts (Project.amount <$> ps).

(** The invoice that the schema makes of a request [body] and a mark:
    [isSent] is the mark, each path that the schema declares is the
    property of the request written as a string (unset when the request
    has none), and there is nothing else. *)
Definition invoice_of (body : JSObject) (mark : bool) (details : JSObject)
  : Prop :=
  details !! "isSent" = Some (JBool mark) ∧
  (∀ k, k ∈ invoice_strings → details !! k = castString <$> body !! k) ∧
  (∀ k, k ∉ invoice_strings → k ≠ "isSent" → details !! k = None).

(** The fields of a project outside its invoice. *)
Definition Project_fields : list (Project.t → JSValue) :=
  [Project.title; Project.description; Project.student;
   Project.submissionDate; Project.frontend; Project.backend;
   Project.database; Project.amount; Project.status].

(** [p'] is [p] under the same identifier, with every field outside the
    invoice that [p] has. *)
Definition keeps_fields (p p' : Project.t) : Prop :=
  Project._id p' = Project._id p ∧
  Forall (λ field, field p ≠ JUndefined → field p' = field p) Project_fields.

(** The invariant of section 3 on a store: no developer is assigned to a
    developer. *)
Definition developers_unassigned (st : Store) : Prop :=
  ∀ u, u ∈ users st → User.role u = developer →
       User.assignedDeveloper u = JUndefined.

(** The updates of a user that either carry no assignedDeveloper or aim
    at a student. *)
Definition keeps_to_students (op : AccountOp) (st : Store) : Prop :=
  match op with
  | UpdateStudent id body =>
    truthy (get body "assignedDeveloper") = false ∨
    ∃ u, User.findById id (users st) = Some u ∧ User.role u = student
  | _ => True
  end.

(** The states reached from the empty store by such operations. *)
Inductive reachable : Store → Prop :=
  | reachable_empty : reachable empty_store
  | reachable_step st op :
      reachable st → keeps_to_students op st →
      reachable (account_step op st).


(** The extensions that the upload handler tells apart. *)
Definition exact_extensions : list string :=
  [".pdf"; ".zip"; ".mp4"; ".mov"; ".avi"; ".mkv"].

(** The operations on users that leave the usernames of the collection
    as they are or add one: a registration or a student creation, with a
    string as username, and an update that carries no username. *)
Definition keeps_usernames (op : AccountOp) : Prop :=
  match op with
  | Register _ body | CreateStudent _ body =>
    ∃ name, get body "username" = JStr name
  | UpdateStudent _ body => truthy (get body "username") = false
  end.

End Specification.

(** A document that has the defaults of its schema in place, as every
    document that the handlers created has: [save()] writes the defaults
    of the paths that a document read from the collection lacks. *)
Definition User_complete (u : User.t) : Prop :=
  Forall (λ field, field u ≠ JUndefined)
         [User.documentPath; User.pdfPath; User.zipPath; User.videoPath].

Definition Project_complete (p : Project.t) : Prop :=
  Forall (λ field, field p ≠ JUndefined)
         [Project.frontend; Project.backend; Project.database;
          Project.amount; Project.status] ∧
  ∃ invoice, Project.invoiceDetails p = Some invoice ∧
             get invoice "paymentStatus" ≠ JUndefined ∧
             get invoice "isSent" ≠ JUndefined.

(** ** Login

    POST /api/auth/login of routes/authRoutes.js, with the method
    [comparePassword] of models/User.js. [bcrypt_compare s h] is
    [bcrypt.compare] on two strings. *)

Class Bcrypt := {
  bcrypt_compare : string → string → bool
}.

(** [typeof v] *)
Definition typeof (v : JSValue) : string :=
  match v with
  | JUndefined => "undefined"
  | JNull => "object"
  | JBool _ => "boolean"
  | JNum _ => "number"
  | JStr _ => "string"
  end.

Section Login.

Context `{platform : Platform} `{bcrypt : Bcrypt}.

(** [user.comparePassword(enteredPassword)]: [bcrypt.compare] fails on
    what is not a string. *)
Definition comparePassword (user : User.t) (enteredPassword : JSValue)
  : string + bool :=
  match enteredPassword, User.password user with
  | JStr s, JStr hash => inr (bcrypt_compare s hash)
  | s, hash => inl ("Illegal arguments: " ++ typeof s ++ ", " ++ typeof hash)
  end.

(** POST /api/auth/login: the password is compared only when a user has
    the username. *)
Definition login (now : Z) (body : JSObject) (st : Store)
  : Outcome * Store :=
  let username := get body "username" in
  let password := get body "password" in
  match User.findOne_username username (users st) with
  | Some user =>
    match comparePassword user password with
    | inl err => (message 500 err, st)
    | inr true =>
      (Respond 200
         (obj [("_id", JVal (JStr (User._id user)));
               ("name", JVal (User.name user));
               ("username", JVal (User.username user));
               ("role", JVal (JStr (Role_name (User.role user))));
               ("token", JVal (JStr (jwt_sign (User._id user) now)))]),
       st)
    | inr false => (message 401 "Invalid username or password", st)
    end
  | None => (message 401 "Invalid username or password", st)
  end.

End Login.

(** A comparison that goes with the hash of [reference]. *)
Definition reference_bcrypt : Bcrypt := {|
  bcrypt_compare := λ s hash, String.eqb hash ("$2a$10$" ++ s)
|}.

(** More request bodies. *)

Definition sam_login : JSObject :=
  <["username" := JStr "sam"]> (<["password" := JStr "changed-it"]> ∅).

Definition new_project : JSObject :=
  <["title" := JStr "Blog"]>
    (<["description" := JStr "A blog engine"]>
       (<["studentId" := JStr "s1"]>
          (<["submissionDate" := JStr "2026-03-01"]>
             (<["amount" := JStr "250"]>
                (<["status" := JStr "Completed"]> ∅))))).

Definition new_password : JSObject :=
  <["password" := JStr "changed-it"]> ∅.

Definition notes : Upload := mkUpload "notes" "application/pdf".



(** * Properties *)

Section Properties.

Context `{platform : Platform}.

(** ** The collections *)

Lemma get_insert_eq (o : JSObject) k v : get (<[k := v]> o) k = v.
Proof. unfold get. by rewrite lookup_insert_eq. Qed.

Lemma Project_findById_id id ps p :
  Project.findById id ps = Some p → Project._id p = id.
Proof.
  unfold Project.findById. intros Hf.
  apply find_some in Hf as [_ Hb]. by apply bool_decide_eq_true in Hb.
Qed.

Lemma Project_findById_replace id id' p' ps :
  Project._id p' = id →
  Project.findById id' (Project.replace p' ps) =
  if decide (id' = id)
  then match Project.findById id ps with Some _ => Some p' | None => None end
  else Project.findById id' ps.
Proof.
  intros <-. unfold Project.findById.
  induction ps as [|q ps IH]; simpl.
  - by destruct (decide _).
  - destruct (decide (Project._id q = Project._id p')) as [e|n]; simpl.
    + rewrite e. destruct (decide (id' = Project._id p')) as [->|n'].
      * by rewrite !bool_decide_eq_true_2.
      * by rewrite !bool_decide_eq_false_2 by congruence.
    + rewrite IH. destruct (decide (id' = Project._id p')) as [->|n'].
      * by rewrite !bool_decide_eq_false_2.
      * done.
Qed.

Lemma User_findById_id id us u :
  User.findById id us = Some u → User._id u = id.
Proof.
  unfold User.findById. intros Hf.
  apply find_some in Hf as [_ Hb]. by apply bool_decide_eq_true in Hb.
Qed.

Lemma User_findById_replace id id' u' us :
  User._id u' = id →
  User.findById id' (User.replace u' us) =
  if decide (id' = id)
  then match User.findById id us with Some _ => Some u' | None => None end
  else User.findById id' us.
Proof.
  intros <-. unfold User.findById.
  induction us as [|q us IH]; simpl.
  - by destruct (decide _).
  - destruct (decide (User._id q = User._id u')) as [e|n]; simpl.
    + rewrite e. destruct (decide (id' = User._id u')) as [->|n'].
      * by rewrite !bool_decide_eq_true_2.
      * by rewrite !bool_decide_eq_false_2 by congruence.
    + rewrite IH. destruct (decide (id' = User._id u')) as [->|n'].
      * by rewrite !bool_decide_eq_false_2.
      * done.
Qed.

(** What the three handlers that save a project have in common. *)
Lemma save_and_respond_submits id p p' st :
  Project.findById id (projects st) = Some p →
  Project._id p' = id →
  submits_project id p' st (save_and_respond p' st).
Proof.
  intros Hf Hid. unfold submits_project, save_and_respond, Project_save.
  destruct (Project_rejects p' (projects st)) as [err|]; [done|].
  simpl. split; [done|]. split; [done|]. split.
  - rewrite (Project_findById_replace id id) by done.
    rewrite decide_True by done. by rewrite Hf.
  - intros id' Hne. rewrite (Project_findById_replace id id') by done.
    by rewrite decide_False.
Qed.

(** ** Invoices *)

Lemma not_found_store model id msg st : (not_found model id msg st).2 = st.
Proof. unfold not_found. by destruct (ObjectId_cast_error model id). Qed.

Lemma not_found_answer model id msg st :
  ∃ status text, not_found model id msg st = (message status text, st).
Proof.
  unfold not_found. destruct (ObjectId_cast_error model id); by eexists _, _.
Qed.

Lemma isSent_undeclared : "isSent" ∉ invoice_strings.
Proof.
  unfold invoice_strings. intros Hin.
  repeat (apply elem_of_cons in Hin as [Hin|Hin]; [discriminate|]).
  by apply elem_of_nil in Hin.
Qed.

Lemma cast_invoice_lookup (o : JSObject) k :
  map_imap cast_invoice_path o !! k =
  if bool_decide (k ∈ invoice_strings) then castString <$> o !! k
  else if bool_decide (k = "isSent") then o !! k ≫= castBoolean
  else None.
Proof.
  rewrite map_lookup_imap. unfold cast_invoice_path.
  destruct (o !! k); simpl; repeat case_bool_decide; done.
Qed.

(** The invoice that is stored for a request and a mark that casts to a
    Boolean. *)
Lemma cast_invoice_marked body mark b :
  castBoolean mark = Some (JBool b) →
  ∃ details,
    cast_invoice (<["isSent" := mark]> body) = Some details ∧
    invoice_of body b details.
Proof.
  intros Hc. unfold cast_invoice. rewrite get_insert_eq, Hc.
  eexists. split; [done|]. split; [|split].
  - rewrite cast_invoice_lookup.
    rewrite bool_decide_eq_false_2 by apply isSent_undeclared.
    by rewrite bool_decide_eq_true_2, lookup_insert_eq.
  - intros k Hk. rewrite cast_invoice_lookup, bool_decide_eq_true_2 by done.
    rewrite lookup_insert_ne; [done|].
    intros <-. by apply isSent_undeclared.
  - intros k Hk Hne. rewrite cast_invoice_lookup.
    rewrite bool_decide_eq_false_2 by done.
    by rewrite bool_decide_eq_false_2.
Qed.

(** The mark that save-bill assigns casts to a Boolean whenever it
    casts. *)
Lemma castBoolean_or previous mark :
  castBoolean (js_or previous (JBool false)) = Some mark →
  ∃ b, mark = JBool b ∧ (truthy previous = false → b = false).
Proof.
  unfold js_or. destruct (truthy previous) eqn:Ht.
  - destruct previous as [| |b|n|s]; simpl in *; try done.
    + intros [= <-]. by exists b.
    + repeat case_match; intros [= <-];
        first [by exists true|by exists false].
    + repeat case_match; intros [= <-];
        first [by exists true|by exists false].
  - intros [= <-]. by exists false.
Qed.

Lemma save_invoice_submits id project details invoice st :
  Project.findById id (projects st) = Some project →
  cast_invoice details = Some invoice →
  submits_project id (Project.set_invoiceDetails invoice project) st
                  (save_invoice details project st).
Proof.
  intros Hf Hc. unfold save_invoice. rewrite Hc.
  apply (save_and_respond_submits id project); [done|].
  by apply Project_findById_id in Hf.
Qed.

Lemma set_invoiceDetails_keeps invoice p :
  keeps_fields p (Project.set_invoiceDetails invoice p).
Proof.
  split; [done|]. unfold Project_fields.
  repeat (constructor; [by intros _|]). constructor.
Qed.

(** What save-bill and send-bill have in common, for a mark that casts. *)
Lemma save_invoice_marked id project body mark b st :
  Project.findById id (projects st) = Some project →
  castBoolean mark = Some (JBool b) →
  ∃ p' details,
    submits_project id p' st
                    (save_invoice (<["isSent" := mark]> body) project st) ∧
    Project.invoiceDetails p' = Some details ∧
    invoice_of body b details ∧
    keeps_fields project p'.
Proof.
  intros Hf Hc.
  destruct (cast_invoice_marked body mark b Hc) as (details & Hd & Hof).
  exists (Project.set_invoiceDetails details project), details.
  split; [by apply save_invoice_submits|]. split; [done|].
  split; [done|]. apply set_invoiceDetails_keeps.
Qed.

Lemma invoice_step_sent id op st : sent id st → sent id (invoice_step op st).
Proof.
  intros (p & Hp & Hs).
  assert (∀ id0 p0 mark body,
            Project.findById id0 (projects st) = Some p0 →
            (id0 = id → castBoolean mark = Some (JBool true)) →
            sent id (save_invoice (<["isSent" := mark]> body) p0 st).2)
    as Hsave.
  { intros id0 p0 mark body H0 Hmark.
    destruct (cast_invoice (<["isSent" := mark]> body)) as [invoice|] eqn:Hc.
    - pose proof (save_invoice_submits id0 p0 _ invoice st H0 Hc) as Hsub.
      unfold submits_project in Hsub.
      destruct (Project_rejects _ _) as [err|].
      + rewrite Hsub. by exists p.
      + destruct Hsub as (_ & _ & Hsame & Hother).
        destruct (decide (id = id0)) as [->|Hne].
        * eexists. split; [done|].
          destruct (cast_invoice_marked body mark true (Hmark eq_refl))
            as (d & Hd & Hm & _).
          rewrite Hc in Hd. injection Hd as <-.
          unfold invoice_isSent, get. simpl. by rewrite Hm.
        * exists p. by rewrite Hother.
    - unfold save_invoice. rewrite Hc. by exists p. }
  destruct op as [id0 body|id0 body]; simpl; unfold save_bill, send_bill;
    destruct (Project.findById id0 (projects st)) as [p0|] eqn:H0;
    try (rewrite not_found_store; by exists p).
  - apply (Hsave id0); [done|]. intros ->.
    assert (p0 = p) as -> by congruence. by rewrite Hs.
  - by apply (Hsave id0).
Qed.

Lemma invoice_run_sent id ops st : sent id st → sent id (invoice_run ops st).
Proof.
  revert st. induction ops as [|op ops IH]; intros st Hs; [done|].
  simpl. apply IH. by apply invoice_step_sent.
Qed.

(** C1, as the code has it. For a project that exists: saveDraft submits
    the project with its invoice replaced by what the schema makes of the
    request body (the paths that it declares, written as strings, and
    nothing else), marked with the isSent that the project had before
    (false when it had none), whatever isSent the request carries;
    sendInvoice does the same with the mark true, whatever the request
    carries, and when it answers 200 the invoice that is stored is marked
    as sent; the fields of the project outside the invoice stay; and once
    the invoice is marked as sent, it stays so after every sequence of
    the two operations, on any projects. *)
Theorem isSent_monotonic (st : Store) (id : ObjectId) (project : Project.t) :
  Project.findById id (projects st) = Some project →
  (∀ body b,
     invoice_isSent project = JBool b ∨
     (invoice_isSent project = JUndefined ∧ b = false) →
     ∃ p' details,
       submits_project id p' st (save_bill id body st) ∧
       Project.invoiceDetails p' = Some details ∧
       invoice_of body b details ∧
       keeps_fields project p') ∧
  (∀ body v, save_bill id (<["isSent" := v]> body) st = save_bill id body st) ∧
  (∀ body, save_bill id (delete "isSent" body) st = save_bill id body st) ∧
  (∀ body,
     ∃ p' details,
       submits_project id p' st (send_bill id body st) ∧
       Project.invoiceDetails p' = Some details ∧
       invoice_of body true details ∧
       keeps_fields project p') ∧
  (∀ body v, send_bill id (<["isSent" := v]> body) st = send_bill id body st) ∧
  (∀ body, send_bill id (delete "isSent" body) st = send_bill id body st) ∧
  (∀ body, status_of (send_bill id body st).1 = Some 200%nat →
           sent id (send_bill id body st).2) ∧
  (invoice_isSent project = JBool true →
   ∀ ops, sent id (invoice_run ops st)).
Proof.
  intros Hf. unfold save_bill, send_bill. rewrite Hf.
  split; [|split; [|split; [|split; [|split; [|split; [|split]]]]]].
  - intros body b Hb. apply (save_invoice_marked id); [done|].
    destruct Hb as [->|[-> ->]]; [by destruct b|done].
  - intros body v. by rewrite insert_insert_eq.
  - intros body. by rewrite insert_delete_eq.
  - intros body. by apply (save_invoice_marked id).
  - intros body v. by rewrite insert_insert_eq.
  - intros body. by rewrite insert_delete_eq.
  - intros body.
    destruct (save_invoice_marked id project body (JBool true) true st Hf
                eq_refl) as (p' & details & Hsub & Hd & (Hm & _) & _).
    unfold submits_project in Hsub.
    destruct (Project_rejects _ _) as [err|]; [by rewrite Hsub|].
    destruct Hsub as (_ & _ & Hsame & _). intros _.
    exists p'. split; [done|].
    unfold invoice_isSent, get. by rewrite Hd, Hm.
  - intros Hs ops. apply invoice_run_sent. by exists project.
Qed.

(** ** Users by identifier *)

Lemma put_student_fields_id body u :
  User._id (put_student_fields body u) = User._id u.
Proof. done. Qed.

Lemma User_save_submits id u u' modified st :
  User.findById id (users st) = Some u →
  User._id u' = id →
  (modified = true → ∃ s, User.password u' = JStr s) →
  ∃ saved,
    pre_save modified u' = Some saved ∧
    ∀ body,
      submits_user id u' saved st
        (match User_save modified u' st with
         | inl err => (message 500 err, st)
         | inr (_, st') => (Respond 200 body, st')
         end).
Proof.
  intros Hf Hid Hpw.
  assert (∃ saved, pre_save modified u' = Some saved ∧ User._id saved = id)
    as (saved & Hsaved & Hsid).
  { unfold pre_save. destruct modified; simpl; [|by eexists].
    destruct (Hpw eq_refl) as [s ->]. by eexists. }
  exists saved. split; [done|]. intros body.
  unfold submits_user, User_save.
  destruct (User_rejects u' (users st)) as [err|]; [done|].
  rewrite Hsaved. simpl. split; [done|]. split; [done|]. split.
  - rewrite (User_findById_replace id id) by done.
    rewrite decide_True by done. by rewrite Hf.
  - intros id' Hne. rewrite (User_findById_replace id id') by done.
    by rewrite decide_False.
Qed.

Lemma put_student_found id body st target :
  User.findById id (users st) = Some target →
  (truthy (get body "password") = false ∨ ∃ s, get body "password" = JStr s) →
  ∃ saved,
    submits_user id (put_student_fields body target) saved st
                 (put_student id body st) ∧
    pre_save (bool_decide (User.password (put_student_fields body target)
                           ≠ User.password target))
             (put_student_fields body target) = Some saved.
Proof.
  intros Hf Hpw.
  pose proof (User_findById_id _ _ _ Hf) as Hid.
  destruct (User_save_submits id target (put_student_fields body target)
              (bool_decide (User.password (put_student_fields body target)
                            ≠ User.password target)) st Hf Hid)
    as (saved & Hsaved & Hsub).
  { intros Hmod. apply bool_decide_eq_true in Hmod. simpl in *.
    destruct Hpw as [Hfalsy|[s Hs]].
    - by rewrite Hfalsy in Hmod.
    - rewrite Hs in *. destruct (truthy (JStr s)); [by eexists|done]. }
  exists saved. split; [|done].
  unfold put_student. rewrite Hf.
  specialize (Hsub (obj [("_id", JVal (JStr (User._id saved)));
                         ("name", JVal (User.name saved));
                         ("username", JVal (User.username saved));
                         ("role", JVal (JStr (Role_name (User.role saved))))])).
  unfold User_save in *.
  destruct (User_rejects _ _); [done|].
  by rewrite Hsaved in *.
Qed.

Lemma pre_save_keeps modified u saved :
  pre_save modified u = Some saved →
  User._id saved = User._id u ∧ User.name saved = User.name u ∧
  User.username saved = User.username u ∧ User.role saved = User.role u ∧
  User.documentPath saved = User.documentPath u ∧
  User.pdfPath saved = User.pdfPath u ∧ User.zipPath saved = User.zipPath u ∧
  User.videoPath saved = User.videoPath u ∧
  User.assignedDeveloper saved = User.assignedDeveloper u.
Proof.
  unfold pre_save. destruct modified; simpl.
  - destruct (castString (User.password u)); try done. by intros [= <-].
  - by intros [= <-].
Qed.

Lemma put_student_status id body st target :
  User.findById id (users st) = Some target →
  status_of (put_student id body st).1 = Some 200%nat ∨
  status_of (put_student id body st).1 = Some 500%nat.
Proof.
  intros Hf. unfold put_student. rewrite Hf.
  destruct (User_save _ _ _) as [err|[u st']]; simpl; auto.
Qed.

Lemma developer_route_passes handler token st caller :
  protect token st = Some caller →
  User.role caller = developer →
  developer_route handler token st = handler caller st.
Proof.
  intros Hp Hr. unfold developer_route, authorizeDeveloper.
  by rewrite Hp, bool_decide_eq_true_2.
Qed.

Lemma put_project_found id body st project :
  Project.findById id (projects st) = Some project →
  submits_project id (put_project_fields body project) st
                  (put_project id body st).
Proof.
  intros Hf. unfold put_project. rewrite Hf.
  apply (save_and_respond_submits id project); [done|].
  by apply Project_findById_id in Hf.
Qed.

(** C2. A caller whose token resolves to a developer is let through to
    the handlers of the three routes on one record, and these look at
    neither the caller nor the developer the record is assigned to: on
    every user that exists, GET /api/students/:id answers 200 with the
    user and the projects, and PUT /api/students/:id answers 200 or 500,
    never 403 or 404, and submits the user with the fields of the request
    applied; on every project that exists, PUT /api/students/project/:id
    submits the project with the fields of the request applied. No
    condition on assignedDeveloper is needed anywhere. *)
Theorem per_id_routes_check_role_only
    (st : Store) (token : option ObjectId) (caller : User.t) :
  protect token st = Some caller →
  User.role caller = developer →
  (∀ id target,
     User.findById id (users st) = Some target →
     GET_student token id st =
       (Respond 200
          (obj [("student", User_populated (users st) target);
                ("projects",
                 JArr (Project_toJSON <$>
                       Project.find_of_student id (projects st)))]),
        st) ∧
     ∀ body,
       (status_of (PUT_student token id body st).1 = Some 200%nat ∨
        status_of (PUT_student token id body st).1 = Some 500%nat) ∧
       (truthy (get body "password") = false ∨
        (∃ s, get body "password" = JStr s) →
        ∃ saved,
          submits_user id (put_student_fields body target) saved st
                       (PUT_student token id body st) ∧
          User.name saved = js_or (get body "name") (User.name target) ∧
          User.username saved =
            js_or (get body "username") (User.username target) ∧
          User.assignedDeveloper saved =
            js_or (get body "assignedDeveloper")
                  (User.assignedDeveloper target) ∧
          User.role saved = User.role target)) ∧
  (∀ id project,
     Project.findById id (projects st) = Some project →
     ∀ body,
       submits_project id (put_project_fields body project) st
                       (PUT_project token id body st)).
Proof.
  intros Hp Hr. split.
  - intros id target Hf. split.
    + unfold GET_student. rewrite (developer_route_passes _ _ _ _ Hp Hr).
      unfold get_student. rewrite Hf.
      by rewrite (User_findById_id _ _ _ Hf).
    + intros body. unfold PUT_student.
      rewrite (developer_route_passes _ _ _ _ Hp Hr). split.
      * by apply (put_student_status id body st target).
      * intros Hpw.
        destruct (put_student_found id body st target Hf Hpw)
          as (saved & Hsub & Hsaved).
        exists saved. split; [done|].
        apply pre_save_keeps in Hsaved.
        destruct Hsaved as (_ & Hn & Hu & Hr' & _ & _ & _ & _ & Ha).
        by rewrite Hn, Hu, Hr', Ha.
  - intros id project Hf body. unfold PUT_project.
    rewrite (developer_route_passes _ _ _ _ Hp Hr).
    by apply put_project_found.
Qed.

(** ** Listing and creating students *)

Lemma find_students_spec dev us u :
  u ∈ User.find_students dev us ↔
  u ∈ us ∧ User.role u = student ∧ User.assignedDeveloper u = JStr dev.
Proof. unfold User.find_students. rewrite list_elem_of_filter. tauto. Qed.

Lemma post_student_created identity body st created st' :
  post_student identity body st = (Respond 201 created, st') →
  ∃ s, created = User_toJSON s ∧
       users st' = (users st ++ [s])%list ∧
       projects st' = projects st ∧
       User.role s = student ∧
       User.assignedDeveloper s = JStr (User._id identity) ∧
       User.name s = get body "name" ∧
       User.username s = get body "username" ∧
       User.findOne_username (get body "username") (users st) = None.
Proof.
  unfold post_student, User_create, message.
  destruct (User.findOne_username _ _); [done|].
  destruct (User_rejects _ _); [done|].
  set (doc := User.mk _ _ _ _ _ _ _ _ _ _).
  destruct (pre_save true doc) as [saved|] eqn:Hs; [|done].
  intros [= <- <-]. exists saved.
  apply pre_save_keeps in Hs. simpl in Hs.
  destruct Hs as (_ & Hn & Hu & Hr & _ & _ & _ & _ & Ha).
  by rewrite Hn, Hu, Hr, Ha.
Qed.

(** C3. GET /api/students of a developer D answers with the users whose
    role is student and whose assignedDeveloper is D, in the order of the
    collection: a user is listed exactly when it is such a user.
    POST /api/students of D answers 201 whenever the username is free,
    the password is a string and the store accepts the new document; when
    it answers 201, the collection has one more user, a student with the
    name and username of the request whose assignedDeveloper is D; this
    student is in the list of D and in the list of no developer other
    than D. *)
Theorem listing_scoped_to_owner (D : User.t) (st : Store) :
  (get_students D st =
     (Respond 200
        (JArr (User_populated (users st) <$>
               User.find_students (User._id D) (users st))),
      st) ∧
   User.find_students (User._id D) (users st) `sublist_of` users st ∧
   ∀ u, u ∈ User.find_students (User._id D) (users st) ↔
        u ∈ users st ∧ User.role u = student ∧
        User.assignedDeveloper u = JStr (User._id D)) ∧
  (∀ body pw,
     User.findOne_username (get body "username") (users st) = None →
     get body "password" = JStr pw →
     User_rejects
       (User.mk (new_ObjectId (User._id <$> users st))
                (get body "name") (get body "username") (JStr pw) student
                (JStr "") (JStr "") (JStr "") (JStr "")
                (JStr (User._id D)))
       (users st) = None →
     ∃ created st', post_student D body st = (Respond 201 created, st')) ∧
  ∀ body created st',
    post_student D body st = (Respond 201 created, st') →
    ∃ s, created = User_toJSON s ∧
         users st' = (users st ++ [s])%list ∧
         User.role s = student ∧
         User.name s = get body "name" ∧
         User.username s = get body "username" ∧
         User.assignedDeveloper s = JStr (User._id D) ∧
         s ∈ User.find_students (User._id D) (users st') ∧
         ∀ D', User._id D' ≠ User._id D →
               s ∉ User.find_students (User._id D') (users st').
Proof.
  split; [|split].
  - split; [done|]. split; [apply sublist_filter|]. apply find_students_spec.
  - intros body pw Hfree Hpw Hacc. unfold post_student, User_create.
    rewrite Hfree, Hpw, Hacc. simpl. by eexists _, _.
  - intros body created st' Hpost.
    destruct (post_student_created _ _ _ _ _ Hpost)
      as (s & -> & Hus & _ & Hrole & Hdev & Hname & Huser & _).
    exists s. repeat (split; [done|]). split.
    + apply find_students_spec. rewrite Hus. set_solver.
    + intros D' Hne Hin. apply find_students_spec in Hin.
      destruct Hin as (_ & _ & Hdev'). congruence.
Qed.

(** ** Updating a project *)



(** ** Statistics *)

Lemma or_number_revenue v :
  or_number (ToNumber v) (Num 0) = revenue_of v.
Proof. unfold or_number, revenue_of. by destruct (ToNumber v). Qed.

Lemma fold_revenue ps a :
  fold_left
    (λ acc curr, add acc (or_number (ToNumber (Project.amount curr)) (Num 0)))
    ps a =
  fold_left (λ acc amount, add acc (revenue_of amount))
            (Project.amount <$> ps) a.
Proof.
  revert a. induction ps as [|p ps IH]; intros a; [done|].
  rewrite fmap_cons. cbn [fold_left]. by rewrite or_number_revenue, IH.
Qed.

Lemma find_of_students_spec (students : list User.t) ps p :
  p ∈ Project.find_of_students (User._id <$> students) ps ↔
  p ∈ ps ∧ ∃ s, s ∈ students ∧ Project.student p = JStr (User._id s).
Proof.
  unfold Project.find_of_students.
  rewrite list_elem_of_filter, <- list_fmap_compose, list_elem_of_fmap.
  simpl. split.
  - intros [(s & Hs & Hin) Hp]. split; [done|]. by exists s.
  - intros [Hp (s & Hin & Hs)]. split; [|done]. by exists s.
Qed.

Lemma revenue_of_NaN v : ToNumber v = NaN → revenue_of v = Num 0.
Proof. unfold revenue_of. by intros ->. Qed.

Lemma revenue_of_truthy n : truthy (JNum n) = true → revenue_of (JNum n) = n.
Proof. unfold revenue_of. simpl. by destruct n. Qed.

(** C5. For a developer D, with the students of D being the users whose
    role is student and whose assignedDeveloper is D, and their projects
    the projects of the collection whose student is one of them:
    totalStudents and totalProjects count the ones and the others, and
    totalRevenue is the sum over these projects, taken from 0 in the
    order of the collection with the addition of the language, of the
    amount coerced to a number: an amount that is not a number or is
    missing counts for zero, and a number other than zero for itself.
    With the amounts 100, "abc" (which is not a number), null and 50
    the total is 150. *)
Theorem globalStats_totals (D : User.t) (st : Store) :
  let students := User.find_students (User._id D) (users st) in
  let theirs :=
    Project.find_of_students (User._id <$> students) (projects st) in
  theirs `sublist_of` projects st ∧
  (∀ p, p ∈ theirs ↔
        p ∈ projects st ∧
        ∃ s, s ∈ students ∧ Project.student p = JStr (User._id s)) ∧
  globalStats D st =
    mkStats (length students) (length theirs) (sum_revenue theirs) ∧
  get_stats D st =
    (Respond 200
       (obj [("totalStudents", JVal (JNum (Num (Z.of_nat (length students)))));
             ("totalProjects", JVal (JNum (Num (Z.of_nat (length theirs)))));
             ("totalRevenue", JVal (JNum (sum_revenue theirs)))]),
     st) ∧
  (∀ v, ToNumber v = NaN → revenue_of v = Num 0) ∧
  (∀ n, truthy (JNum n) = true → revenue_of (JNum n) = n) ∧
  revenue_of JUndefined = Num 0 ∧
  (StringToNumber "abc" = NaN →
   Project.amount <$> theirs =
     [JNum (Num 100); JStr "abc"; JNull; JNum (Num 50)] →
   totalRevenue (globalStats D st) = Num 150).
Proof.
  intros students theirs.
  assert (globalStats D st =
          mkStats (length students) (length theirs) (sum_revenue theirs))
    as Hstats.
  { unfold globalStats. fold students. fold theirs.
    by rewrite length_fmap, fold_revenue. }
  split; [apply sublist_filter|].
  split; [apply find_of_students_spec|].
  split; [done|].
  split; [by unfold get_stats; rewrite Hstats|].
  split; [apply revenue_of_NaN|].
  split; [apply revenue_of_truthy|]. split; [done|].
  intros Habc Hamounts. rewrite Hstats. simpl.
  unfold sum_revenue. rewrite Hamounts.
  unfold sum_amounts, revenue_of. simpl. by rewrite Habc.
Qed.

(** ** Accounts *)

Lemma User_findById_elem id us u : User.findById id us = Some u → u ∈ us.
Proof.
  unfold User.findById. intros Hf. apply find_some in Hf as [Hin _].
  by apply list_elem_of_In.
Qed.

Lemma elem_of_User_replace u' us x :
  x ∈ User.replace u' us → x = u' ∨ x ∈ us.
Proof.
  induction us as [|v us IH]; simpl; [by right|].
  destruct (decide (User._id v = User._id u')); intros Hx;
    apply elem_of_cons in Hx as [->|Hx].
  - by left.
  - right. apply elem_of_cons. by right.
  - right. apply elem_of_cons. by left.
  - destruct (IH Hx) as [->|Hin]; [by left|].
    right. apply elem_of_cons. by right.
Qed.

Lemma User_create_unassigned name username password role assigned st u st' :
  User_create name username password role assigned st = inr (u, st') →
  users st' = (users st ++ [u])%list ∧
  User.role u = role ∧ User.assignedDeveloper u = assigned.
Proof.
  unfold User_create. destruct (User_rejects _ _); [done|].
  set (doc := User.mk _ _ _ _ _ _ _ _ _ _).
  destruct (pre_save true doc) as [saved|] eqn:Hs; [|done].
  intros [= <- <-]. apply pre_save_keeps in Hs. simpl in Hs.
  destruct Hs as (_ & _ & _ & Hr & _ & _ & _ & _ & Ha). by rewrite Hr, Ha.
Qed.

Lemma account_step_unassigned op st :
  developers_unassigned st →
  keeps_to_students op st →
  developers_unassigned (account_step op st).
Proof.
  intros Hinv Hop. destruct op as [now body|identity body|id body]; simpl.
  - unfold register.
    destruct (length_of _); [|done].
    destruct (shorter _ _); [done|].
    destruct (User.findOne_username _ _); [done|].
    destruct (User_create _ _ _ _ _ _) as [err|[u st']] eqn:Hc; [done|].
    apply User_create_unassigned in Hc as (Hus & _ & Ha). simpl.
    intros x Hx Hr. rewrite Hus in Hx.
    apply elem_of_app in Hx as [Hx|Hx]; [by apply Hinv|].
    apply list_elem_of_singleton in Hx. by subst x.
  - unfold post_student.
    destruct (User.findOne_username _ _); [done|].
    destruct (User_create _ _ _ _ _ _) as [err|[u st']] eqn:Hc; [done|].
    apply User_create_unassigned in Hc as (Hus & Hrole & _). simpl.
    intros x Hx Hr. rewrite Hus in Hx.
    apply elem_of_app in Hx as [Hx|Hx]; [by apply Hinv|].
    apply list_elem_of_singleton in Hx. subst x. congruence.
  - unfold put_student.
    destruct (User.findById id (users st)) as [target|] eqn:Hf;
      [|by rewrite not_found_store].
    unfold User_save. destruct (User_rejects _ _); [done|].
    destruct (pre_save _ _) as [saved|] eqn:Hs; [|done]. simpl.
    apply pre_save_keeps in Hs. simpl in Hs.
    destruct Hs as (_ & _ & _ & Hr & _ & _ & _ & _ & Ha).
    intros x Hx Hrx. apply elem_of_User_replace in Hx as [->|Hx];
      [|by apply Hinv].
    rewrite Ha. rewrite Hr in Hrx.
    destruct Hop as [Hfalsy|(u & Hu & Hstu)].
    + unfold js_or. rewrite Hfalsy.
      apply Hinv; [by apply (User_findById_elem id)|done].
    + congruence.
Qed.

(** C7, as the code has it. In every state reached from the empty store
    by developer registration, student creation and those updates
    PUT /api/students/:id that carry no assignedDeveloper or aim at a
    student, no user whose role is developer has an assignedDeveloper. *)
Theorem developers_stay_unassigned (st : Store) :
  reachable st → developers_unassigned st.
Proof.
  induction 1 as [|st op _ IH Hop].
  - intros u Hu. by apply elem_of_nil in Hu.
  - by apply account_step_unassigned.
Qed.

(** ** Registration *)

(** C10. POST /api/auth/register reads the length of the password before
    any guard and outside its try: when the request has no password the
    handler throws, what it throws is caught by nothing and no response
    is made, the 400 of the validation included; the answer that the
    password must be at least 8 characters long is given only to a
    request that has a password, a string of fewer than 8 characters, and
    is given to every such request. *)
Theorem register_without_password
    (now : Z) (st : Store) (body : JSObject) :
  (body !! "password" = None →
   register now body st = (Uncaught "TypeError", st) ∧
   ∀ status answer, (register now body st).1 ≠ Respond status answer) ∧
  ((register now body st).1 =
     message 400 "Password must be at least 8 characters long" →
   ∃ s, body !! "password" = Some (JStr s) ∧ (String.length s < 8)%nat) ∧
  (∀ s, body !! "password" = Some (JStr s) → (String.length s < 8)%nat →
        register now body st =
          (message 400 "Password must be at least 8 characters long", st)).
Proof.
  unfold register, get. split; [|split].
  - intros ->. by split.
  - destruct (body !! "password") as [[| |b|n|s]|] eqn:Hp; simpl; try done.
    + destruct (User.findOne_username _ _); [done|].
      by destruct (User_create _ _ _ _ _ _) as [|[]].
    + destruct (User.findOne_username _ _); [done|].
      by destruct (User_create _ _ _ _ _ _) as [|[]].
    + destruct (Nat.ltb_spec (String.length s) 8) as [Hlt|Hge].
      * intros _. by exists s.
      * destruct (User.findOne_username _ _); [done|].
        by destruct (User_create _ _ _ _ _ _) as [|[]].
  - intros s -> Hlt. simpl.
    by destruct (Nat.ltb_spec (String.length s) 8) as [|Hge]; [|lia].
Qed.

(** ** Uploads *)

Lemma filetypes_test_alternative s :
  filetypes_test s = true →
  ∃ alt, alt ∈ ["zip"; "pdf"; "mp4"; "mov"; "avi"; "mkv"] ∧
         includes alt s = true.
Proof.
  unfold filetypes_test. intros Ht. apply existsb_exists in Ht.
  destruct Ht as (alt & Hin & Hinc). exists alt.
  split; [by apply list_elem_of_In|done].
Qed.

Lemma fileFilter_accepts part :
  fileFilter part = None ↔
  filetypes_test (toLowerCase (extname (originalname part))) = true.
Proof.
  unfold fileFilter.
  by destruct (filetypes_test (toLowerCase (extname (originalname part)))).
Qed.

Lemma upload_found id now part st user :
  User.findById id (users st) = Some user →
  fileFilter part = None →
  submits_user id (upload_fields (storage now part) user)
               (upload_fields (storage now part) user) st
               (upload id now (Some part) st).
Proof.
  intros Hf Hacc. unfold upload, upload_handler. rewrite Hacc, Hf.
  destruct (User_save_submits id user
              (upload_fields (storage now part) user) false st Hf)
    as (saved & Hsaved & Hsub).
  { unfold upload_fields. rewrite <- (User_findById_id _ _ _ Hf).
    by repeat case_match. }
  { done. }
  injection Hsaved as <-.
  apply (Hsub (obj [("message", JVal (JStr "File uploaded successfully"));
                    ("path", JVal (JStr (file_path (storage now part))))])).
Qed.

(** C9. An upload that the filter accepted and whose extension, in lower
    case, is one of .pdf, .zip, .mp4, .mov, .avi, .mkv makes the handler
    submit the user with the stored path in the one matching field of
    pdfPath, zipPath and videoPath; documentPath and every other field
    are as they were. An accepted upload of any other extension makes it
    submit the user with the stored path in documentPath and nothing else
    changed, and such an extension contains one of zip, pdf, mp4, mov,
    avi, mkv without being that alternative after the dot. *)
Theorem upload_writes_one_path
    (st : Store) (id : ObjectId) (now : Z) (part : Upload) (user : User.t) :
  User.findById id (users st) = Some user →
  fileFilter part = None →
  let ext := toLowerCase (extname (originalname part)) in
  let path := JStr (file_path (storage now part)) in
  ∃ u',
    submits_user id u' u' st (upload id now (Some part) st) ∧
    (ext ∈ exact_extensions →
     u' = User.mk (User._id user) (User.name user) (User.username user)
                  (User.password user) (User.role user)
                  (User.documentPath user)
                  (if decide (ext = ".pdf") then path else User.pdfPath user)
                  (if decide (ext = ".zip") then path else User.zipPath user)
                  (if decide (ext ∈ [".mp4"; ".mov"; ".avi"; ".mkv"])
                   then path else User.videoPath user)
                  (User.assignedDeveloper user)) ∧
    (ext ∉ exact_extensions →
     u' = User.mk (User._id user) (User.name user) (User.username user)
                  (User.password user) (User.role user)
                  path
                  (User.pdfPath user) (User.zipPath user)
                  (User.videoPath user) (User.assignedDeveloper user) ∧
     ∃ alt, alt ∈ ["zip"; "pdf"; "mp4"; "mov"; "avi"; "mkv"] ∧
            includes alt ext = true ∧ ext ≠ "." ++ alt).
Proof.
  intros Hf Hacc ext path.
  exists (upload_fields (storage now part) user).
  split; [by apply upload_found|].
  unfold upload_fields. simpl. fold ext. fold path.
  unfold exact_extensions. split.
  - intros Hin.
    destruct (decide (ext = ".pdf")) as [->|Hpdf]; [done|].
    destruct (decide (ext = ".zip")) as [->|Hzip]; [done|].
    rewrite bool_decide_decide.
    destruct (decide (ext ∈ [".mp4"; ".mov"; ".avi"; ".mkv"])) as [|Hv];
      [done|].
    exfalso. apply Hv.
    apply elem_of_cons in Hin as [?|Hin]; [done|].
    by apply elem_of_cons in Hin as [?|Hin].
  - intros Hout.
    destruct (decide (ext = ".pdf")) as [Hpdf|_].
    { exfalso. apply Hout. rewrite Hpdf. by apply elem_of_cons; left. }
    destruct (decide (ext = ".zip")) as [Hzip|_].
    { exfalso. apply Hout. rewrite Hzip.
      apply elem_of_cons; right. by apply elem_of_cons; left. }
    rewrite bool_decide_decide.
    destruct (decide (ext ∈ [".mp4"; ".mov"; ".avi"; ".mkv"])) as [Hv|_].
    { exfalso. apply Hout.
      apply elem_of_cons; right. by apply elem_of_cons; right. }
    split; [done|].
    apply fileFilter_accepts in Hacc. fold ext in Hacc.
    destruct (filetypes_test_alternative _ Hacc) as (alt & Hin & Hinc).
    exists alt. split; [done|]. split; [done|].
    intros Heq. apply Hout. rewrite Heq.
    repeat (apply elem_of_cons in Hin as [->|Hin];
            [by repeat constructor|]).
    by apply elem_of_nil in Hin.
Qed.

(** ** What a response carries *)

Lemma has_key_written k j : has_key k (written j) = has_key k j.
Proof.
  destruct j as [v|items|fields]; try done.
  destruct v as [| |b|n|s]; try done. by destruct n.
Qed.

Lemma has_key_obj k fields :
  has_key k (obj fields) = true →
  ∃ kv, kv ∈ fields ∧ (k = kv.1 ∨ has_key k kv.2 = true).
Proof.
  unfold obj. simpl. intros Hk. apply existsb_exists in Hk.
  destruct Hk as (kv & Hin & Hkv). apply filter_In in Hin as [Hin _].
  apply list_elem_of_In, list_elem_of_fmap in Hin as (kv0 & -> & Hin).
  exists kv0. split; [done|]. cbn [fst snd] in Hkv.
  rewrite has_key_written in Hkv.
  apply orb_true_iff in Hkv as [Hkv|Hkv]; [left|by right].
  by apply String.eqb_eq in Hkv.
Qed.

(** What is read with [.select('-password')] carries no password, with
    or without the developer populated. *)
Lemma User_json_without_password us u assigned :
  assigned = JVal (User.assignedDeveloper u) ∨
  assigned = populate_name us (User.assignedDeveloper u) →
  has_key "password" (User_json false assigned u) = false.
Proof.
  intros Ha. apply not_true_is_false. intros Hk.
  apply has_key_obj in Hk as (kv & Hin & Hkv). simpl in Hin.
  assert (has_key "password" assigned = false) as Hassigned.
  { destruct Ha as [->| ->]; [done|]. unfold populate_name.
    destruct (User.assignedDeveloper u); try done.
    destruct (User.findById s us); [|done].
    apply not_true_is_false. intros Hk.
    apply has_key_obj in Hk as (kv' & Hin' & Hkv').
    repeat (apply elem_of_cons in Hin' as [->|Hin'];
            [by destruct Hkv'|]).
    by apply elem_of_nil in Hin'. }
  repeat (apply elem_of_cons in Hin as [->|Hin];
          [by destruct Hkv as [?|Hkv]; simpl in *; congruence|]).
  by apply elem_of_nil in Hin.
Qed.

(** The answer 201 of POST /api/students carries the stored password. *)
Lemma post_student_carries_password identity body st created st' :
  post_student identity body st = (Respond 201 created, st') →
  has_key "password" created = true.
Proof.
  unfold post_student, User_create, message.
  destruct (User.findOne_username _ _); [done|].
  destruct (User_rejects _ _); [done|].
  unfold pre_save. simpl.
  destruct (castString (get body "password")) as [| | | |s]; try done.
  intros [= <- <-]. unfold User_toJSON, User_json, obj. simpl.
  repeat (case_match; simpl; try done).
Qed.

(** The mime type of the upload plays no part in the decision. *)
Lemma fileFilter_ignores_mimetype name mime mime' :
  fileFilter (mkUpload name mime) = fileFilter (mkUpload name mime').
Proof. done. Qed.

(** The answers that carry a user read with [.select('-password')], or
    built from [_id], [name], [username] and [role], have no password. *)
Lemma has_key_items k (items : list Json) :
  (∀ j, j ∈ items → has_key k j = false) → has_key k (JArr items) = false.
Proof.
  intros Hall. simpl. apply not_true_is_false. intros Hk.
  apply existsb_exists in Hk as (j & Hin & Hj).
  apply list_elem_of_In in Hin. by rewrite (Hall j Hin) in Hj.
Qed.

Lemma selected_answers_without_password identity id now body st :
  has_key "password" (body_of (get_students identity st).1) = false ∧
  has_key "password" (body_of (get_developers st).1) = false ∧
  has_key "password" (body_of (get_me identity st).1) = false ∧
  has_key "password" (body_of (put_student id body st).1) = false ∧
  has_key "password" (body_of (register now body st).1) = false.
Proof.
  assert (∀ msg, has_key "password" (obj [("message", JVal (JStr msg))])
                 = false) as Hmsg by done.
  split; [|split; [|split; [|split]]].
  - apply has_key_items. intros j Hj.
    apply list_elem_of_fmap in Hj as (u & -> & _).
    apply (User_json_without_password (users st)). by right.
  - apply has_key_items. intros j Hj.
    apply list_elem_of_fmap in Hj as (u & -> & _).
    apply (User_json_without_password []). by left.
  - unfold get_me. destruct (User.findById _ _); [|done].
    apply (User_json_without_password []). by left.
  - unfold put_student.
    destruct (User.findById _ _);
      [|by destruct (not_found_answer "User" id "User not found" st)
              as (status & text & ->)].
    destruct (User_save _ _ _) as [err|[u st']]; [done|].
    apply not_true_is_false. intros Hh. cbn [body_of fst] in Hh.
    apply has_key_obj in Hh as (kv & Hin & Hkv).
    repeat (apply elem_of_cons in Hin as [->|Hin]; [by destruct Hkv|]).
    by apply elem_of_nil in Hin.
  - unfold register. destruct (length_of _); [|done].
    destruct (shorter _ _); [done|].
    destruct (User.findOne_username _ _); [done|].
    destruct (User_create _ _ _ _ _ _) as [err|[u st']]; [done|].
    apply not_true_is_false. intros Hh. cbn [body_of fst] in Hh.
    apply has_key_obj in Hh as (kv & Hin & Hkv).
    repeat (apply elem_of_cons in Hin as [->|Hin]; [by destruct Hkv|]).
    by apply elem_of_nil in Hin.
Qed.

End Properties.

(** * Runs on the reference platform *)

Section Reference.
#[local] Existing Instance reference.

(** A draft on a project that has no invoice yet, with a number where
    the schema has a string and with a property that the schema does not
    declare; a send on the same project; and a project whose invoice was
    sent, after a draft, a send on another project and a draft that
    carries no isSent. *)
Lemma isSent_monotonic_witness :
  Project.findById "p1" (projects demo_store) = Some pro1 ∧
  invoice_isSent pro1 = JUndefined ∧
  (∃ p' details,
     submits_project "p1" p' demo_store
                     (save_bill "p1" noted_invoice demo_store) ∧
     Project.invoiceDetails p' = Some details ∧
     get details "isSent" = JBool false ∧
     get details "invoiceNo" = JStr "INV-9" ∧
     get details "amount" = JStr "250" ∧
     details !! "note" = None) ∧
  sent "p1" (send_bill "p1" noted_invoice demo_store).2 ∧
  Project.findById "p4" (projects demo_store) = Some pro4 ∧
  invoice_isSent pro4 = JBool true ∧
  sent "p4"
       (invoice_run
          [SaveDraft "p4" draft_invoice; SendInvoice "p1" draft_invoice;
           SaveDraft "p4" ∅]
          demo_store).
Proof.
  pose proof (isSent_monotonic demo_store "p1" pro1 eq_refl)
    as (Hsave & _ & _ & _ & _ & _ & Hsend & _).
  pose proof (isSent_monotonic demo_store "p4" pro4 eq_refl)
    as (_ & _ & _ & _ & _ & _ & _ & Hsent).
  split; [reflexivity|]. split; [reflexivity|]. split.
  - destruct (Hsave noted_invoice false (or_intror (conj eq_refl eq_refl)))
      as (p' & details & Hsub & Hd & (Hmark & Hdeclared & Hother) & _).
    exists p', details. split; [exact Hsub|]. split; [exact Hd|].
    unfold get. split; [by rewrite Hmark|].
    split; [|split].
    + rewrite (Hdeclared "invoiceNo"); [reflexivity|].
      vm_compute. apply list_elem_of_here.
    + rewrite (Hdeclared "amount"); [reflexivity|].
      vm_compute. do 9 apply list_elem_of_further. apply list_elem_of_here.
    + apply Hother; [|discriminate]. vm_compute. intros Hin.
      repeat (apply elem_of_cons in Hin as [Hin|Hin]; [discriminate|]).
      by apply elem_of_nil in Hin.
  - split; [exact (Hsend noted_invoice eq_refl)|].
    split; [reflexivity|]. split; [reflexivity|].
    exact (Hsent eq_refl _).
Defined.

(** C1, as it is stated, fails: what save-bill stores is not the request
    body with the mark. From the body of a draft with a number for the
    amount and a note, the stored invoice has the amount as a string and
    no note. *)
Lemma invoice_not_verbatim_counterexample :
  ¬ (∀ (st : Store) (id : ObjectId) (project : Project.t) (body : JSObject),
       Project.findById id (projects st) = Some project →
       ∃ p',
         submits_project id p' st (save_bill id body st) ∧
         Project.invoiceDetails p' =
           Some (<["isSent" := js_or (invoice_isSent project) (JBool false)]>
                   body)).
Proof.
  intros Hall.
  destruct (Hall demo_store "p1" pro1 noted_invoice eq_refl)
    as (p' & Hsub & Hinvoice).
  unfold submits_project in Hsub.
  destruct (Project_rejects p' (projects demo_store)) as [err|].
  - vm_compute in Hsub. discriminate Hsub.
  - destruct Hsub as (_ & _ & Hfound & _).
    vm_compute in Hfound. injection Hfound as <-.
    apply (f_equal (λ o, o ≫= (.!! "note"))) in Hinvoice.
    vm_compute in Hinvoice. discriminate Hinvoice.
Qed.

(** The second developer renames a student of the first. *)
Lemma per_id_routes_witness :
  protect (Some "d2") demo_store = Some dev2 ∧
  User.role dev2 = developer ∧
  User.findById "s1" (users demo_store) = Some stu1 ∧
  User.assignedDeveloper stu1 ≠ JStr (User._id dev2) ∧
  ∃ saved,
    submits_user "s1"
      (put_student_fields renamed stu1) saved demo_store
      (PUT_student (Some "d2") "s1" renamed demo_store) ∧
    User.name saved = JStr "Samuel".
Proof.
  split; [reflexivity|]. split; [reflexivity|]. split; [reflexivity|].
  split; [discriminate|].
  destruct (proj2 (proj2 (proj1 (per_id_routes_check_role_only
                             demo_store (Some "d2")
                             dev2 eq_refl eq_refl)
                          "s1" stu1 eq_refl) renamed)
              (or_introl eq_refl))
    as (saved & Hsub & Hname & _).
  exists saved. split; [exact Hsub|exact Hname].
Defined.

(** The first developer creates a student. *)
Lemma listing_scoped_to_owner_witness :
  ∃ created st',
    post_student dev1 new_student demo_store =
      (Respond 201 created, st') ∧
    ∃ s, (s ∈ User.find_students "d1" (users st')) ∧
         (s ∉ User.find_students "d2" (users st')) ∧
         User.username s = JStr "nina".
Proof.
  pose proof (proj2 (proj2 (listing_scoped_to_owner dev1 demo_store))
                    new_student) as Hcreated.
  destruct (post_student dev1 new_student demo_store) as [o st'] eqn:Hpost.
  vm_compute in Hpost. injection Hpost as <- <-.
  eexists. eexists. split; [reflexivity|].
  destruct (Hcreated _ _ eq_refl)
    as (s & _ & _ & _ & _ & Huser & _ & Hmine & Hothers).
  exists s. split; [exact Hmine|]. split; [|exact Huser].
  apply (Hothers dev2). discriminate.
Defined.



(** The statistics of the first developer. *)
Lemma globalStats_totals_witness :
  StringToNumber "abc" = NaN ∧
  Project.amount <$>
    Project.find_of_students
      (User._id <$> User.find_students "d1" (users demo_store))
      (projects demo_store) =
    [JNum (Num 100); JStr "abc"; JNull; JNum (Num 50)] ∧
  totalRevenue (globalStats dev1 demo_store) = Num 150.
Proof.
  split; [reflexivity|]. split; [reflexivity|].
  exact (proj2 (proj2 (proj2 (proj2 (proj2 (proj2 (proj2
           (globalStats_totals dev1 demo_store)))))))
           eq_refl eq_refl).
Defined.

(** The sum is the sum of doubles: fractions add up, and above 2^53 an
    amount of 1 is lost in the rounding. *)
Lemma sum_amounts_rounds :
  sum_amounts [JNum twelve_and_a_half; JNum twelve_and_a_half; JStr "abc"]
    = Num 25 ∧
  sum_amounts [JNum two_to_the_53; JNum (Num 1); JNum (Num 1)]
    = two_to_the_53.
Proof. split; reflexivity. Qed.

(** C7, as it is stated, fails: a developer registers and then updates
    the user of its own identifier with an assignedDeveloper; the update
    is saved, and the developer is assigned to a developer. *)
Lemma developer_assigned_counterexample :
  ¬ (∀ ops : list AccountOp,
       developers_unassigned
         (account_run ops empty_store)).
Proof.
  intros Hall.
  specialize (Hall [Register t0 new_developer; UpdateStudent "id0" self_assigned]).
  set (u := User.mk "id0" (JStr "Dana") (JStr "dana")
                    (JStr "$2a$10$password1") developer
                    (JStr "") (JStr "") (JStr "") (JStr "") (JStr "id0")).
  assert (u ∈ users (account_run
                       [Register t0 new_developer;
                        UpdateStudent "id0" self_assigned] empty_store)) as Hin.
  { vm_compute. apply list_elem_of_here. }
  specialize (Hall u Hin eq_refl). discriminate Hall.
Qed.

(** A developer registers and is renamed. *)
Lemma developers_stay_unassigned_witness :
  reachable
    (account_run
       [Register t0 new_developer; UpdateStudent "id0" renamed] empty_store) ∧
  developers_unassigned
    (account_run
       [Register t0 new_developer; UpdateStudent "id0" renamed] empty_store).
Proof.
  assert (reachable
            (account_run
               [Register t0 new_developer; UpdateStudent "id0" renamed]
               empty_store)) as Hr.
  { apply (reachable_step (account_step (Register t0 new_developer) empty_store)
                          (UpdateStudent "id0" renamed)).
    - apply (reachable_step empty_store (Register t0 new_developer)).
      + apply reachable_empty.
      + exact I.
    - left. reflexivity. }
  split; [exact Hr|]. exact (developers_stay_unassigned _ Hr).
Defined.

(** A registration with a name and a username only. *)
Lemma register_without_password_witness :
  no_password !! "password" = None ∧
  register t0 no_password demo_store =
    (Uncaught "TypeError", demo_store).
Proof.
  split; [reflexivity|].
  exact (proj1 (proj1 (register_without_password
                         t0 demo_store no_password) eq_refl)).
Defined.

(** report.pdf goes to pdfPath, report.pdfx to documentPath. *)
Lemma upload_writes_one_path_witness :
  User.findById "s1" (users demo_store) = Some stu1 ∧
  fileFilter report_pdf = None ∧
  fileFilter report_pdfx = None ∧
  (∃ u', submits_user "s1" u' u' demo_store
           (upload "s1" 1700000000000 (Some report_pdf) demo_store) ∧
         u' = User.set_pdfPath (JStr "uploads/1700000000000-report.pdf")
                               stu1) ∧
  (∃ u', submits_user "s1" u' u' demo_store
           (upload "s1" 1700000000000 (Some report_pdfx) demo_store) ∧
         u' = User.set_documentPath
                (JStr "uploads/1700000000000-report.pdfx") stu1).
Proof.
  split; [reflexivity|]. split; [reflexivity|]. split; [reflexivity|].
  split.
  - destruct (upload_writes_one_path demo_store "s1"
                1700000000000 report_pdf stu1 eq_refl eq_refl)
      as (u' & Hsub & Hexact & _).
    exists u'. split; [exact Hsub|].
    rewrite Hexact; [reflexivity|]. vm_compute. apply list_elem_of_here.
  - destruct (upload_writes_one_path demo_store "s1"
                1700000000000 report_pdfx stu1 eq_refl eq_refl)
      as (u' & Hsub & _ & Hother).
    exists u'. split; [exact Hsub|].
    apply Hother. vm_compute. intros Hin.
    repeat (apply elem_of_cons in Hin as [Hin|Hin]; [discriminate|]).
    by apply elem_of_nil in Hin.
Defined.

(** C6, at the request that shows the defect: the answer 201 of
    POST /api/students is the whole document that was created, the hash
    of the password included, while the list of the same students, read
    with [.select('-password')], has none. *)
Lemma post_student_sends_password :
  ∃ st',
    post_student dev1 new_student demo_store =
      (Respond 201
         (JObj [("_id", JVal (JStr "id5")); ("name", JVal (JStr "Nina"));
                ("username", JVal (JStr "nina"));
                ("password", JVal (JStr (bcrypt_hash "secret123")));
                ("role", JVal (JStr "student"));
                ("documentPath", JVal (JStr "")); ("pdfPath", JVal (JStr ""));
                ("zipPath", JVal (JStr "")); ("videoPath", JVal (JStr ""));
                ("assignedDeveloper", JVal (JStr "d1"))]),
       st') ∧
    has_key "password"
            (body_of (post_student dev1 new_student demo_store).1) = true ∧
    has_key "password" (body_of (get_students dev1 st').1) = false.
Proof.
  eexists. split; [vm_compute; reflexivity|]. split; reflexivity.
Qed.

(** The uploads report.exe, report.pdf and clip.mp4: the first
    is refused with the error of the filter, whatever its mime type, the
    others are stored in pdfPath and in videoPath. *)
Lemma upload_examples :
  upload "s1" 1700000000000 (Some report_exe) demo_store =
    (NextError only_allowed, demo_store) ∧
  User.findById "s1"
    (users (upload "s1" 1700000000000 (Some report_pdf) demo_store).2) =
    Some (User.set_pdfPath (JStr "uploads/1700000000000-report.pdf") stu1) ∧
  User.findById "s1"
    (users (upload "s1" 1700000000000 (Some clip_mp4) demo_store).2) =
    Some (User.set_videoPath (JStr "uploads/1700000000000-clip.mp4") stu1).
Proof. repeat split; reflexivity. Qed.

(** C8, at the request that shows the defect: the extension of
    report.pdfx is not one of the six, yet the filter accepts the file,
    because its regular expression is not anchored, and the handler
    stores the path in documentPath. *)
Lemma upload_accepts_pdfx :
  toLowerCase (extname (originalname report_pdfx)) = ".pdfx" ∧
  (".pdfx" ∉ exact_extensions) ∧
  fileFilter report_pdfx = None ∧
  ∃ st',
    upload "s1" 1700000000000 (Some report_pdfx) demo_store =
      (Respond 200
         (obj [("message", JVal (JStr "File uploaded successfully"));
               ("path", JVal (JStr "uploads/1700000000000-report.pdfx"))]),
       st') ∧
    User.findById "s1" (users st') =
      Some (User.set_documentPath
              (JStr "uploads/1700000000000-report.pdfx") stu1).
Proof.
  split; [reflexivity|]. split.
  { unfold exact_extensions. intros Hin.
    repeat (apply elem_of_cons in Hin as [Hin|Hin]; [discriminate|]).
    by apply elem_of_nil in Hin. }
  split; [reflexivity|].
  eexists. split; [vm_compute; reflexivity|]. reflexivity.
Qed.

End Reference.

(** * Further properties *)

Section Further.

Context `{platform : Platform} `{bcrypt : Bcrypt}.

(** ** More on the collections *)

Lemma User_findById_app id us u :
  User.findById id (us ++ [u]) =
  match User.findById id us with
  | Some v => Some v
  | None => if decide (User._id u = id) then Some u else None
  end.
Proof.
  unfold User.findById. induction us as [|v us IH]; simpl.
  - destruct (decide (User._id u = id)).
    + by rewrite bool_decide_eq_true_2.
    + by rewrite bool_decide_eq_false_2.
  - by destruct (bool_decide (User._id v = id)).
Qed.


Lemma findOne_username_None name us :
  User.findOne_username name us = None ↔ name ∉ User.username <$> us.
Proof.
  unfold User.findOne_username. induction us as [|v us IH]; simpl.
  - split; [intros _ Hin; by apply elem_of_nil in Hin|done].
  - destruct (decide (User.username v = name)) as [<-|Hne].
    + rewrite bool_decide_eq_true_2 by done. split; [done|].
      intros Hn. exfalso. apply Hn. by apply elem_of_cons; left.
    + rewrite bool_decide_eq_false_2 by done. rewrite IH.
      split; intros Hn Hin.
      * apply elem_of_cons in Hin as [Heq|Hin]; [congruence|by apply Hn].
      * apply Hn. by apply elem_of_cons; right.
Qed.

Lemma User_replace_ids u' us :
  User._id <$> User.replace u' us = User._id <$> us.
Proof.
  induction us as [|v us IH]; [done|]. cbn [User.replace].
  destruct (decide (User._id v = User._id u')) as [e|n];
    rewrite !fmap_cons; congruence.
Qed.

Lemma User_replace_same id us u :
  User.findById id us = Some u → User.replace u us = us.
Proof.
  unfold User.findById. induction us as [|v us IH]; simpl; [done|].
  destruct (decide (User._id v = id)) as [e|n].
  - rewrite bool_decide_eq_true_2 by done. intros [= ->].
    by rewrite decide_True.
  - rewrite bool_decide_eq_false_2 by done. intros Hf.
    pose proof (User_findById_id _ _ _ Hf) as Hid.
    rewrite decide_False by congruence. by rewrite IH.
Qed.

Lemma Project_replace_same id ps p :
  Project.findById id ps = Some p → Project.replace p ps = ps.
Proof.
  unfold Project.findById. induction ps as [|v ps IH]; simpl; [done|].
  destruct (decide (Project._id v = id)) as [e|n].
  - rewrite bool_decide_eq_true_2 by done. intros [= ->].
    by rewrite decide_True.
  - rewrite bool_decide_eq_false_2 by done. intros Hf.
    pose proof (Project_findById_id _ _ _ Hf) as Hid.
    rewrite decide_False by congruence. by rewrite IH.
Qed.

Lemma Project_replace_twice p' ps :
  Project.replace p' (Project.replace p' ps) = Project.replace p' ps.
Proof.
  induction ps as [|v ps IH]; simpl; [done|].
  destruct (decide (Project._id v = Project._id p')) as [e|n]; simpl.
  - by rewrite decide_True.
  - rewrite decide_False by done. by rewrite IH.
Qed.

(** What [replace] keeps of a collection of projects: every function of
    a project that has the same value on the new document as on the one
    it replaces. *)
Lemma Project_replace_fmap {A} (f : Project.t → A) id p p' ps :
  Project.findById id ps = Some p →
  Project._id p' = id →
  f p' = f p →
  f <$> Project.replace p' ps = f <$> ps.
Proof.
  intros Hf <- Heq. revert Hf. unfold Project.findById.
  induction ps as [|v ps IH]; [done|]. cbn [Project.replace find].
  destruct (decide (Project._id v = Project._id p')) as [e|n].
  - rewrite bool_decide_eq_true_2 by done. intros [= ->].
    rewrite !fmap_cons. congruence.
  - rewrite bool_decide_eq_false_2 by done. intros Hf.
    rewrite !fmap_cons. by rewrite IH.
Qed.

(** ** Creating accounts *)

Lemma User_create_appends name username password role assigned st u st' :
  User_create name username password role assigned st = inr (u, st') →
  st' = with_users (users st ++ [u]) st ∧
  User.name u = name ∧ User.username u = username ∧
  User.role u = role ∧ User.assignedDeveloper u = assigned ∧
  ∀ pw, password = JStr pw → User.password u = JStr (bcrypt_hash pw).
Proof.
  unfold User_create. destruct (User_rejects _ _); [done|].
  unfold pre_save. simpl.
  destruct (castString password) as [| | | |hashed] eqn:Hcast; try done.
  intros [= <- <-]. repeat (split; [done|]).
  intros pw ->. simpl in Hcast. by injection Hcast as <-.
Qed.

Lemma register_created now body st answer st' :
  register now body st = (Respond 201 answer, st') →
  ∃ u,
    User_create (get body "name") (get body "username") (get body "password")
                developer JUndefined st = inr (u, st') ∧
    User.findOne_username (get body "username") (users st) = None ∧
    answer = obj [("_id", JVal (JStr (User._id u)));
                  ("name", JVal (User.name u));
                  ("username", JVal (User.username u));
                  ("role", JVal (JStr (Role_name (User.role u))));
                  ("token", JVal (JStr (jwt_sign (User._id u) now)))].
Proof.
  unfold register, message.
  destruct (length_of _); [|done].
  destruct (shorter _ _); [done|].
  destruct (User.findOne_username _ _); [done|].
  destruct (User_create _ _ _ _ _ _) as [err|[u st'']]; [done|].
  intros [= <- <-]. by exists u.
Qed.

Lemma post_student_create identity body st answer st' :
  post_student identity body st = (Respond 201 answer, st') →
  ∃ u,
    User_create (get body "name") (get body "username") (get body "password")
                student (JStr (User._id identity)) st = inr (u, st') ∧
    User.findOne_username (get body "username") (users st) = None ∧
    answer = User_toJSON u.
Proof.
  unfold post_student, message.
  destruct (User.findOne_username _ _); [done|].
  destruct (User_create _ _ _ _ _ _) as [err|[u st'']]; [done|].
  intros [= <- <-]. by exists u.
Qed.

(** A username that some user has is refused by both creations. *)
Lemma username_taken now body st pw :
  get body "username" ∈ User.username <$> users st →
  get body "password" = JStr pw →
  (8 ≤ String.length pw)%nat →
  register now body st = (message 400 "User already exists", st) ∧
  ∀ identity,
    post_student identity body st = (message 400 "Student already exists", st).
Proof.
  intros Hin Hpw Hlen.
  destruct (User.findOne_username (get body "username") (users st))
    as [v|] eqn:Hf.
  2: { by apply findOne_username_None in Hf. }
  split.
  - unfold register. rewrite Hpw. simpl.
    destruct (Nat.ltb_spec (String.length pw) 8); [lia|].
    by rewrite Hf.
  - intros identity. unfold post_student. by rewrite Hf.
Qed.

(** What [replace] keeps of a collection of users. *)
Lemma User_replace_fmap {A} (f : User.t → A) id u u' us :
  User.findById id us = Some u →
  User._id u' = id →
  f u' = f u →
  f <$> User.replace u' us = f <$> us.
Proof.
  intros Hf <- Heq. revert Hf. unfold User.findById.
  induction us as [|v us IH]; [done|]. cbn [User.replace find].
  destruct (decide (User._id v = User._id u')) as [e|n].
  - rewrite bool_decide_eq_true_2 by done. intros [= ->].
    rewrite !fmap_cons. congruence.
  - rewrite bool_decide_eq_false_2 by done. intros Hf.
    rewrite !fmap_cons. by rewrite IH.
Qed.

(** A registration, a student creation or an update without a username
    leaves the usernames of the collection as they are, or adds one that
    no user had. *)
Lemma account_step_usernames op st :
  keeps_usernames op →
  User.username <$> users (account_step op st) = User.username <$> users st ∨
  ∃ v, (v ∉ User.username <$> users st) ∧
       User.username <$> users (account_step op st) =
       ((User.username <$> users st) ++ [v])%list.
Proof.
  intros Hop.
  assert (∀ body role assigned u st',
            User.findOne_username (get body "username") (users st) = None →
            User_create (get body "name") (get body "username")
                        (get body "password") role assigned st
              = inr (u, st') →
            ∃ v, (v ∉ User.username <$> users st) ∧
                 User.username <$> users st' =
                 ((User.username <$> users st) ++ [v])%list) as Hcreate.
  { intros body role assigned u st' Hfree Hc.
    apply User_create_appends in Hc as (-> & _ & Hu & _).
    exists (get body "username"). split.
    - by apply findOne_username_None.
    - simpl. by rewrite fmap_app, <- Hu. }
  destruct op as [now body|identity body|id body]; simpl.
  - unfold register. destruct (length_of _); [|by left].
    destruct (shorter _ _); [by left|].
    destruct (User.findOne_username _ _) eqn:Hfree; [by left|].
    destruct (User_create _ _ _ _ _ _) as [err|[u st']] eqn:Hc; [by left|].
    right. by apply (Hcreate body developer JUndefined u).
  - unfold post_student.
    destruct (User.findOne_username _ _) eqn:Hfree; [by left|].
    destruct (User_create _ _ _ _ _ _) as [err|[u st']] eqn:Hc; [by left|].
    right. by apply (Hcreate body student (JStr (User._id identity)) u).
  - left. unfold put_student.
    destruct (User.findById id (users st)) as [target|] eqn:Hf;
      [|by rewrite not_found_store].
    unfold User_save. destruct (User_rejects _ _); [done|].
    destruct (pre_save _ _) as [saved|] eqn:Hs; [|done]. simpl.
    apply pre_save_keeps in Hs as (Hsid & _ & Hsu & _).
    apply (User_replace_fmap User.username id target); [done| |].
    + rewrite Hsid. simpl. by apply User_findById_id in Hf.
    + rewrite Hsu. simpl in *. unfold js_or. by rewrite Hop.
Qed.

Lemma account_run_usernames ops st :
  Forall keeps_usernames ops →
  (∀ v, v ∈ User.username <$> users st →
        v ∈ User.username <$> users (account_run ops st)) ∧
  (NoDup (User.username <$> users st) →
   NoDup (User.username <$> users (account_run ops st))).
Proof.
  intros Hops. revert st.
  induction Hops as [|op ops Hop _ IH]; intros st; [done|].
  destruct (IH (account_step op st)) as [IHin IHnd].
  destruct (account_step_usernames op st Hop) as [Heq|(w & Hw & Heq)];
    simpl; split.
  - intros v Hv. apply IHin. by rewrite Heq.
  - intros Hnd. apply IHnd. by rewrite Heq.
  - intros v Hv. apply IHin. rewrite Heq. apply elem_of_app. by left.
  - intros Hnd. apply IHnd. rewrite Heq. apply NoDup_app.
    split; [done|]. split; [|apply NoDup_singleton].
    intros x Hx Hx'. apply list_elem_of_singleton in Hx'. by subst x.
Qed.

(** X1. Once a registration or a student creation with a string as
    username was answered 201, the username stays taken through every
    sequence of registrations and student creations with strings as
    usernames and of updates PUT /api/students/:id that carry no
    username: after such a sequence
    a registration with that username (and a password of at least 8
    characters) is answered 400, user already exists, a student creation
    with it is answered 400, student already exists, and neither changes
    the store. *)
Theorem created_username_is_taken
    (identity : User.t) (now now' : Z) (body body' : JSObject)
    (st st' : Store) (answer : Json) (name pw' : string)
    (ops : list AccountOp) :
  register now body st = (Respond 201 answer, st') ∨
  post_student identity body st = (Respond 201 answer, st') →
  get body "username" = JStr name →
  Forall keeps_usernames ops →
  get body' "username" = JStr name →
  get body' "password" = JStr pw' →
  (8 ≤ String.length pw')%nat →
  register now' body' (account_run ops st') =
    (message 400 "User already exists", account_run ops st') ∧
  ∀ identity',
    post_student identity' body' (account_run ops st') =
      (message 400 "Student already exists", account_run ops st').
Proof.
  intros Hcreated Hname Hops Huser Hpw Hlen.
  apply (username_taken now' body' _ pw'); [|done|done].
  rewrite Huser, <- Hname.
  apply (account_run_usernames ops st' Hops).
  assert (∃ u, users st' = (users st ++ [u])%list ∧
               User.username u = get body "username") as (u & -> & <-).
  { destruct Hcreated as [Hr|Hp].
    - apply register_created in Hr as (u & Hc & _).
      apply User_create_appends in Hc as (-> & _ & Hu & _). by exists u.
    - apply post_student_create in Hp as (u & Hc & _).
      apply User_create_appends in Hc as (-> & _ & Hu & _). by exists u. }
  rewrite fmap_app. apply elem_of_app. right. by apply list_elem_of_singleton.
Qed.

(** X2. Through every sequence of registrations and student creations
    with strings as usernames and of updates PUT /api/students/:id that
    carry no username, each request handled after the one before it was
    answered, the usernames of the collection stay pairwise distinct,
    also when the store accepts every write: both creations look the
    username up before they create the user. *)
Theorem creations_keep_usernames_distinct
    (ops : list AccountOp) (st : Store) :
  Forall keeps_usernames ops →
  NoDup (User.username <$> users st) →
  NoDup (User.username <$> users (account_run ops st)).
Proof. intros Hops. apply (account_run_usernames ops st Hops). Qed.

(** ** Passwords *)

(** X3. What registration and student creation store as the password
    of the new user is the hash of the string of the request, and the
    new user is the last of the collection. *)
Theorem created_password_is_hashed
    (identity : User.t) (now : Z) (body : JSObject) (st st' : Store)
    (answer : Json) (pw : string) :
  register now body st = (Respond 201 answer, st') ∨
  post_student identity body st = (Respond 201 answer, st') →
  get body "password" = JStr pw →
  ∃ u, users st' = (users st ++ [u])%list ∧
       projects st' = projects st ∧
       User.username u = get body "username" ∧
       User.password u = JStr (bcrypt_hash pw).
Proof.
  intros Hcreated Hpw.
  assert (∃ role assigned u,
            User_create (get body "name") (get body "username")
                        (get body "password") role assigned st
              = inr (u, st')) as (role & assigned & u & Hc).
  { destruct Hcreated as [Hr|Hp].
    - apply register_created in Hr as (u & Hc & _). by eexists _, _, _.
    - apply post_student_create in Hp as (u & Hc & _). by eexists _, _, _. }
  apply User_create_appends in Hc as (-> & _ & Hu & _ & _ & Hhash).
  exists u. repeat (split; [done|]). by apply Hhash.
Qed.

(** X4. PUT /api/students/:id with a password, a non-empty string other
    than what is stored, stores its hash when the store accepts the
    update; without a password (absent or falsy) the update leaves the
    stored password as it is, and so does every upload: the hook hashes
    only a password that was modified, never one that is already a
    hash. *)
Theorem password_hashed_only_when_changed
    (id : ObjectId) (st : Store) (target : User.t) :
  User.findById id (users st) = Some target →
  (∀ body pw,
     get body "password" = JStr pw → pw ≠ "" →
     User.password target ≠ JStr pw →
     User_rejects (put_student_fields body target) (users st) = None →
     ∃ saved,
       User.findById id (users (put_student id body st).2) = Some saved ∧
       User.password saved = JStr (bcrypt_hash pw)) ∧
  (∀ body,
     truthy (get body "password") = false →
     ∃ saved,
       User.findById id (users (put_student id body st).2) = Some saved ∧
       User.password saved = User.password target) ∧
  (∀ now part,
     ∃ saved,
       User.findById id (users (upload id now part st).2) = Some saved ∧
       User.password saved = User.password target).
Proof.
  intros Hf. pose proof (User_findById_id _ _ _ Hf) as Hid.
  assert (∀ u' modified saved,
            User._id u' = id →
            pre_save modified u' = Some saved →
            User.findById id (User.replace saved (users st)) = Some saved)
    as Hreplace.
  { intros u' modified saved Hu' Hs.
    apply pre_save_keeps in Hs as (Hsid & _).
    rewrite (User_findById_replace id id) by congruence.
    by rewrite decide_True, Hf. }
  split; [|split].
  - intros body pw Hpw Hne Hchanged Hacc.
    unfold put_student, User_save. rewrite Hf, Hacc.
    assert (User.password (put_student_fields body target) = JStr pw) as Hp.
    { simpl. rewrite Hpw. simpl. by destruct (String.eqb_spec pw ""). }
    rewrite Hp, bool_decide_eq_true_2 by congruence.
    assert (pre_save true (put_student_fields body target) =
            Some (User.set_password (JStr (bcrypt_hash pw))
                                    (put_student_fields body target))) as Hs.
    { unfold pre_save. by rewrite Hp. }
    rewrite Hs.
    exists (User.set_password (JStr (bcrypt_hash pw))
                              (put_student_fields body target)).
    split; [|done].
    by apply (Hreplace (put_student_fields body target) true).
  - intros body Hfalsy. unfold put_student, User_save. rewrite Hf.
    destruct (User_rejects _ _); [by exists target|].
    assert (User.password (put_student_fields body target)
            = User.password target) as Hp.
    { simpl. by rewrite Hfalsy. }
    rewrite Hp, bool_decide_eq_false_2 by (intros Hn; by apply Hn).
    simpl. eexists. split; [|exact Hp].
    by apply (Hreplace (put_student_fields body target) false).
  - intros now part.
    assert (∀ file,
              ∃ saved,
                User.findById id (users (upload_handler id file st).2)
                  = Some saved ∧
                User.password saved = User.password target) as Hhandler.
    { intros file. unfold upload_handler. rewrite Hf.
      destruct file as [f|]; [|by exists target].
      unfold User_save. destruct (User_rejects _ _); [by exists target|].
      simpl. eexists. split.
      - apply (Hreplace (upload_fields f target) false); [|done].
        unfold upload_fields. by repeat case_match.
      - unfold upload_fields. by repeat case_match. }
    unfold upload. destruct part as [file|]; [|apply Hhandler].
    destruct (fileFilter file); [by exists target|apply Hhandler].
Qed.

(** ** Users stay, and keep their role *)

Lemma account_step_keeps_user op st id u :
  User.findById id (users st) = Some u →
  ∃ u', User.findById id (users (account_step op st)) = Some u' ∧
        User.role u' = User.role u.
Proof.
  intros Hf.
  assert (∀ name username password role assigned v st',
            User_create name username password role assigned st
              = inr (v, st') →
            User.findById id (users st') = Some u) as Hcreate.
  { intros name username password role assigned v st' Hc.
    apply User_create_appends in Hc as (-> & _). simpl.
    by rewrite User_findById_app, Hf. }
  destruct op as [now body|identity body|id0 body]; simpl.
  - unfold register. destruct (length_of _); [|by exists u].
    destruct (shorter _ _); [by exists u|].
    destruct (User.findOne_username _ _); [by exists u|].
    destruct (User_create _ _ _ _ _ _) as [err|[v st']] eqn:Hc;
      [by exists u|].
    exists u. split; [|done]. by apply (Hcreate _ _ _ _ _ _ _ Hc).
  - unfold post_student.
    destruct (User.findOne_username _ _); [by exists u|].
    destruct (User_create _ _ _ _ _ _) as [err|[v st']] eqn:Hc;
      [by exists u|].
    exists u. split; [|done]. by apply (Hcreate _ _ _ _ _ _ _ Hc).
  - unfold put_student.
    destruct (User.findById id0 (users st)) as [target|] eqn:Hf0;
      [|rewrite not_found_store; by exists u].
    unfold User_save. destruct (User_rejects _ _); [by exists u|].
    destruct (pre_save _ _) as [saved|] eqn:Hs; [|by exists u]. simpl.
    apply pre_save_keeps in Hs as (Hsid & _ & _ & Hrole & _).
    simpl in Hsid, Hrole.
    pose proof (User_findById_id _ _ _ Hf0) as Hid0.
    rewrite (User_findById_replace id0 id) by congruence.
    destruct (decide (id = id0)) as [->|Hne]; [|by exists u].
    rewrite Hf0. exists saved. split; [done|]. congruence.
Qed.

(** X5. No sequence of registrations, student creations and updates
    PUT /api/students/:id removes a user or changes its role: a user
    found under an identifier is still found under it afterwards, with
    the role it had. *)
Theorem users_stay_with_their_role
    (ops : list AccountOp) (st : Store) (id : ObjectId) (u : User.t) :
  User.findById id (users st) = Some u →
  ∃ u', User.findById id (users (account_run ops st)) = Some u' ∧
        User.role u' = User.role u.
Proof.
  revert st u. induction ops as [|op ops IH]; intros st u Hf.
  - by exists u.
  - destruct (account_step_keeps_user op st id u Hf) as (u1 & Hf1 & Hr1).
    destruct (IH _ _ Hf1) as (u' & Hf' & Hr').
    exists u'. split; [done|]. congruence.
Qed.

(** ** Login *)

Lemma findOne_username_Some name us :
  name ∈ User.username <$> us →
  ∃ user, User.findOne_username name us = Some user ∧
          User.username user = name.
Proof.
  intros Hin.
  destruct (User.findOne_username name us) as [user|] eqn:Hf.
  - exists user. split; [done|]. unfold User.findOne_username in Hf.
    apply find_some in Hf as [_ Hb]. by apply bool_decide_eq_true in Hb.
  - by apply findOne_username_None in Hf.
Qed.

(** The answer of a login that succeeds for [user]. *)
Lemma login_found now body st user pw hash :
  User.findOne_username (get body "username") (users st) = Some user →
  get body "password" = JStr pw →
  User.password user = JStr hash →
  login now body st =
    (if bcrypt_compare pw hash
     then Respond 200
            (obj [("_id", JVal (JStr (User._id user)));
                  ("name", JVal (User.name user));
                  ("username", JVal (User.username user));
                  ("role", JVal (JStr (Role_name (User.role user))));
                  ("token", JVal (JStr (jwt_sign (User._id user) now)))])
     else message 401 "Invalid username or password",
     st).
Proof.
  intros Hf Hpw Hhash. unfold login, comparePassword.
  rewrite Hf, Hpw, Hhash. by destruct (bcrypt_compare pw hash).
Qed.

(** X6. POST /api/auth/login never changes the store. For a request
    whose username is a string: when no user has that username the answer
    is 401 whatever the password, absent or not a string included,
    because the password is compared only when a user was found; when a
    user has it and the password is not a string, the answer is 500 and
    not 401; and the answer 200 is given only for a user with that
    username, a string password and a stored hash that the comparison
    accepts. *)
Theorem login_answers (now : Z) (body : JSObject) (st : Store) :
  (login now body st).2 = st ∧
  ∀ name,
    get body "username" = JStr name →
    (JStr name ∉ User.username <$> users st →
     login now body st = (message 401 "Invalid username or password", st)) ∧
    (JStr name ∈ User.username <$> users st →
     (∀ pw, get body "password" ≠ JStr pw) →
     status_of (login now body st).1 = Some 500%nat) ∧
    (∀ answer,
       (login now body st).1 = Respond 200 answer →
       ∃ user pw hash,
         User.findOne_username (JStr name) (users st) = Some user ∧
         User.username user = JStr name ∧
         get body "password" = JStr pw ∧
         User.password user = JStr hash ∧
         bcrypt_compare pw hash = true ∧
         answer = obj [("_id", JVal (JStr (User._id user)));
                       ("name", JVal (User.name user));
                       ("username", JVal (User.username user));
                       ("role", JVal (JStr (Role_name (User.role user))));
                       ("token", JVal (JStr (jwt_sign (User._id user) now)))]).
Proof.
  split.
  - unfold login. destruct (User.findOne_username _ _); [|done].
    destruct (comparePassword _ _) as [err|[|]]; done.
  - intros name Hname. split; [|split].
    + intros Hfree. apply findOne_username_None in Hfree.
      unfold login. by rewrite Hname, Hfree.
    + intros Hin Hpw. apply findOne_username_Some in Hin as (user & Hf & _).
      unfold login, comparePassword. rewrite Hname, Hf.
      destruct (get body "password") as [| | | |pw]; try done.
      by destruct (Hpw pw).
    + intros answer. unfold login, comparePassword, message. rewrite Hname.
      destruct (User.findOne_username _ _) as [user|] eqn:Hf; [|done].
      destruct (get body "password") as [| | | |pw]; try done.
      destruct (User.password user) as [| | | |hash] eqn:Hh; try done.
      destruct (bcrypt_compare pw hash) eqn:Hc; [|done].
      intros [= <-]. exists user, pw, hash. split; [done|].
      split; [|done]. unfold User.findOne_username in Hf.
      apply find_some in Hf as [_ Hb]. by apply bool_decide_eq_true in Hb.
Qed.


Lemma findOne_username_replace id name us target saved :
  User.findById id us = Some target →
  User.findOne_username name us = Some target →
  User._id saved = id →
  User.username saved = name →
  User.findOne_username name (User.replace saved us) = Some saved.
Proof.
  intros Hf Hn <- <-. revert Hf Hn.
  unfold User.findById, User.findOne_username.
  induction us as [|v us IH]; [done|]. cbn [find User.replace].
  destruct (decide (User._id v = User._id saved)) as [e|n].
  - intros _ _. cbn [find]. by rewrite bool_decide_eq_true_2.
  - rewrite (bool_decide_eq_false_2 _ n). intros Hf.
    destruct (decide (User.username v = User.username saved)) as [e'|n'].
    + rewrite (bool_decide_eq_true_2 _ e'). intros [= ->].
      apply find_some in Hf as [_ Hb]. by apply bool_decide_eq_true in Hb.
    + rewrite (bool_decide_eq_false_2 _ n'). intros Hn. cbn [find].
      rewrite (bool_decide_eq_false_2 _ n'). by apply IH.
Qed.

(** X8. After PUT /api/students/:id has stored a new password for a user
    (a non-empty string other than what was stored, the username left as
    it was, the update accepted by the store), a login with the username
    of that user and the new password is answered 200 for that user, as
    soon as the comparison accepts a password against its own hash. *)
Theorem changed_password_logs_in
    (id : ObjectId) (st : Store) (target : User.t)
    (now' : Z) (body body' : JSObject) (pw : string) :
  User.findById id (users st) = Some target →
  User.findOne_username (User.username target) (users st) = Some target →
  get body "password" = JStr pw → pw ≠ "" →
  User.password target ≠ JStr pw →
  truthy (get body "username") = false →
  User_rejects (put_student_fields body target) (users st) = None →
  bcrypt_compare pw (bcrypt_hash pw) = true →
  get body' "username" = User.username target →
  get body' "password" = JStr pw →
  ∃ saved,
    User.findById id (users (put_student id body st).2) = Some saved ∧
    login now' body' (put_student id body st).2 =
      (Respond 200
         (obj [("_id", JVal (JStr id));
               ("name", JVal (User.name saved));
               ("username", JVal (User.username target));
               ("role", JVal (JStr (Role_name (User.role target))));
               ("token", JVal (JStr (jwt_sign id now')))]),
       (put_student id body st).2).
Proof.
  intros Hf Hn Hpw Hne Hchanged Huser Hacc Hlaw Huser' Hpw'.
  pose proof (User_findById_id _ _ _ Hf) as Hid.
  assert (User.password (put_student_fields body target) = JStr pw) as Hp.
  { simpl. rewrite Hpw. simpl. by destruct (String.eqb_spec pw ""). }
  set (saved := User.set_password (JStr (bcrypt_hash pw))
                                  (put_student_fields body target)).
  assert ((put_student id body st).2 =
          with_users (User.replace saved (users st)) st) as Hst.
  { unfold put_student, User_save. rewrite Hf, Hacc.
    rewrite Hp, bool_decide_eq_true_2 by congruence.
    unfold pre_save. by rewrite Hp. }
  assert (User.username saved = User.username target) as Hsu.
  { simpl. unfold js_or. by rewrite Huser. }
  exists saved. rewrite Hst. split.
  - simpl. rewrite (User_findById_replace id id) by done.
    by rewrite decide_True, Hf.
  - rewrite (login_found now' body' _ saved pw (bcrypt_hash pw)).
    + rewrite Hlaw, Hsu.
      change (User._id saved) with (User._id target).
      change (User.role saved) with (User.role target).
      by rewrite Hid.
    + simpl. rewrite Huser'.
      by apply (findOne_username_replace id _ _ target).
    + done.
    + done.
Qed.

(** ** Assigning projects *)

Lemma assign_project_created body st answer st' :
  assign_project body st = (Respond 201 answer, st') →
  ∃ p, answer = Project_toJSON p ∧
       st' = with_projects (projects st ++ [p]) st ∧
       Project.status p = JStr "Pending" ∧
       Project.student p = get body "studentId" ∧
       Project.amount p = JNum (ToNumber (get body "amount")) ∧
       Project.invoiceDetails p = Some invoice_defaults.
Proof.
  unfold assign_project, Project_create, message.
  destruct (Project_rejects _ _); [done|].
  intros [= <- <-]. by eexists.
Qed.

(** X9. A project that POST /api/students/assign-project created (answer
    201) is the last of the collection, its status is Pending whatever
    status the request carries, its amount is the number of the amount of
    the request, its invoice is not sent, and its student is the
    studentId of the request as it is, whether or not a user has that
    identifier; the users are untouched, and the project is among the
    projects of that student. *)
Theorem assigned_project_is_pending
    (body : JSObject) (st st' : Store) (answer : Json) :
  assign_project body st = (Respond 201 answer, st') →
  ∃ p, answer = Project_toJSON p ∧
       projects st' = (projects st ++ [p])%list ∧
       users st' = users st ∧
       Project.status p = JStr "Pending" ∧
       Project.student p = get body "studentId" ∧
       Project.amount p = JNum (ToNumber (get body "amount")) ∧
       invoice_isSent p = JBool false ∧
       ∀ sid, get body "studentId" = JStr sid →
              p ∈ Project.find_of_student sid (projects st').
Proof.
  intros Ha. apply assign_project_created in Ha
    as (p & -> & -> & Hstatus & Hstudent & Hamount & Hinvoice).
  exists p. repeat (split; [done|]). split.
  - unfold invoice_isSent. by rewrite Hinvoice.
  - intros sid Hsid. unfold Project.find_of_student. simpl.
    apply list_elem_of_filter. split; [congruence|].
    apply elem_of_app. right. by apply list_elem_of_singleton.
Qed.

(** ** Statistics over time *)

Lemma globalStats_sum D st :
  globalStats D st =
  mkStats
    (length (User.find_students (User._id D) (users st)))
    (length (Project.find_of_students
               (User._id <$> User.find_students (User._id D) (users st))
               (projects st)))
    (sum_revenue
       (Project.find_of_students
          (User._id <$> User.find_students (User._id D) (users st))
          (projects st))).
Proof. unfold globalStats. by rewrite length_fmap, fold_revenue. Qed.




(** X11. After POST /api/students answered 201, the creator has one
    student more in its statistics, and every other developer as many
    as before. *)
Theorem post_student_counts
    (D : User.t) (body : JSObject) (st st' : Store) (answer : Json) :
  post_student D body st = (Respond 201 answer, st') →
  totalStudents (globalStats D st') = S (totalStudents (globalStats D st)) ∧
  ∀ D', User._id D' ≠ User._id D →
        totalStudents (globalStats D' st') =
        totalStudents (globalStats D' st).
Proof.
  intros Hp. apply post_student_create in Hp as (u & Hc & _).
  apply User_create_appends in Hc as (-> & _ & _ & Hrole & Hdev & _).
  assert (∀ D', totalStudents (globalStats D' (with_users (users st ++ [u]) st))
                = (totalStudents (globalStats D' st) +
                   if decide (User._id D' = User._id D) then 1 else 0)%nat)
    as Hcount.
  { intros D'. rewrite !globalStats_sum. simpl.
    unfold User.find_students. rewrite filter_app, length_app. f_equal.
    rewrite filter_cons, filter_nil.
    destruct (decide (User._id D' = User._id D)) as [e|n].
    - rewrite decide_True; [done|]. split; [done|]. by rewrite Hdev, e.
    - rewrite decide_False; [done|]. intros [_ Hd]. congruence. }
  split.
  - rewrite Hcount, decide_True by done. lia.
  - intros D' Hne. rewrite Hcount, decide_False by done. lia.
Qed.

Lemma replace_keeps_selection (S : list JSValue) id p p' ps :
  Project.findById id ps = Some p →
  Project._id p' = id →
  Project.student p' = Project.student p →
  length (filter (λ q, Project.student q ∈ S) (Project.replace p' ps)) =
  length (filter (λ q, Project.student q ∈ S) ps) ∧
  (Project.amount p' = Project.amount p →
   Project.amount <$>
     filter (λ q, Project.student q ∈ S) (Project.replace p' ps) =
   Project.amount <$> filter (λ q, Project.student q ∈ S) ps).
Proof.
  intros Hf <- Hs. revert Hf. unfold Project.findById.
  induction ps as [|v ps IH]; [done|]. cbn [find Project.replace].
  destruct (decide (Project._id v = Project._id p')) as [e|n].
  - rewrite bool_decide_eq_true_2 by done. intros [= ->].
    rewrite !filter_cons.
    destruct (decide (Project.student p ∈ S)) as [Hin|Hout].
    + rewrite decide_True by (by rewrite Hs). simpl.
      split; [done|]. by intros ->.
    + by rewrite decide_False by (by rewrite Hs).
  - rewrite bool_decide_eq_false_2 by done. intros Hf.
    destruct (IH Hf) as [Hlen Hsum]. rewrite !filter_cons.
    destruct (decide (Project.student v ∈ S)); simpl.
    + split; [by rewrite Hlen|]. intros Ha. f_equal. by apply Hsum.
    + done.
Qed.

Lemma saved_project_keeps_counts D id p p' st :
  Project.findById id (projects st) = Some p →
  Project._id p' = id →
  Project.student p' = Project.student p →
  totalStudents (globalStats D (save_and_respond p' st).2) =
    totalStudents (globalStats D st) ∧
  totalProjects (globalStats D (save_and_respond p' st).2) =
    totalProjects (globalStats D st) ∧
  (Project.amount p' = Project.amount p →
   globalStats D (save_and_respond p' st).2 = globalStats D st).
Proof.
  intros Hf Hid Hs. unfold save_and_respond, Project_save.
  destruct (Project_rejects _ _); [done|].
  rewrite !globalStats_sum. simpl. unfold Project.find_of_students.
  destruct (replace_keeps_selection
              (JStr <$> (User._id <$>
                         User.find_students (User._id D) (users st)))
              id p p' (projects st) Hf Hid Hs) as [Hlen Hsum].
  split; [done|]. split; [done|].
  intros Ha. unfold sum_revenue. by rewrite Hlen, (Hsum Ha).
Qed.

(** X12. The updates of a project never move it to another student: the
    statistics of every developer count as many students and projects
    after PUT /api/students/project/:id, save-bill or send-bill as
    before, and after save-bill and send-bill, which leave the amount
    alone, the revenue is the same too. *)
Theorem project_updates_keep_counts
    (D : User.t) (id : ObjectId) (body : JSObject) (st : Store) :
  totalStudents (globalStats D (put_project id body st).2) =
    totalStudents (globalStats D st) ∧
  totalProjects (globalStats D (put_project id body st).2) =
    totalProjects (globalStats D st) ∧
  globalStats D (save_bill id body st).2 = globalStats D st ∧
  globalStats D (send_bill id body st).2 = globalStats D st.
Proof.
  unfold put_project, save_bill, send_bill.
  destruct (Project.findById id (projects st)) as [p|] eqn:Hf;
    [|by rewrite !not_found_store].
  pose proof (Project_findById_id _ _ _ Hf) as Hid.
  destruct (saved_project_keeps_counts D id p (put_project_fields body p) st
              Hf Hid eq_refl) as (Hs & Hp & _).
  split; [done|]. split; [done|].
  assert (∀ details,
            globalStats D (save_invoice details p st).2 = globalStats D st)
    as Hinvoice.
  { intros details. unfold save_invoice.
    destruct (cast_invoice details); [|done].
    by apply (saved_project_keeps_counts D id p). }
  split; apply Hinvoice.
Qed.

(** ** Updates that change nothing *)

Lemma js_or_idem a b : js_or a (js_or a b) = js_or a b.
Proof. unfold js_or. by destruct (truthy a). Qed.

Lemma put_project_fields_idem body p :
  put_project_fields body (put_project_fields body p) =
  put_project_fields body p.
Proof.
  unfold put_project_fields. simpl. rewrite !js_or_idem.
  by destruct (defined (get body "amount")).
Qed.

Lemma save_and_respond_again id p p' st :
  Project.findById id (projects st) = Some p →
  Project._id p' = id →
  Project.findById id (projects (save_and_respond p' st).2) = Some p' ∨
  (save_and_respond p' st).2 = st.
Proof.
  intros Hf Hid. unfold save_and_respond, Project_save.
  destruct (Project_rejects _ _); [by right|]. left. simpl.
  rewrite (Project_findById_replace id id) by done.
  by rewrite decide_True, Hf.
Qed.

Lemma save_and_respond_same id p st :
  Project.findById id (projects st) = Some p →
  (save_and_respond p st).2 = st.
Proof.
  intros Hf. unfold save_and_respond, Project_save.
  destruct (Project_rejects _ _); [done|]. simpl.
  rewrite (Project_replace_same id) by done. by destruct st.
Qed.

(** The invoice that a draft stores is the one that the same draft
    stores again. *)
Lemma cast_invoice_again previous body details :
  cast_invoice (<["isSent" := js_or previous (JBool false)]> body)
    = Some details →
  cast_invoice (<["isSent" := js_or (get details "isSent") (JBool false)]>
                  body)
    = Some details.
Proof.
  unfold cast_invoice. rewrite !get_insert_eq.
  destruct (castBoolean (js_or previous (JBool false))) as [mark|] eqn:Hm;
    [|done].
  intros [= <-].
  destruct (castBoolean_or _ _ Hm) as (b & -> & _).
  assert (get (map_imap cast_invoice_path
                 (<["isSent" := js_or previous (JBool false)]> body))
              "isSent" = JBool b) as ->.
  { unfold get. rewrite cast_invoice_lookup.
    rewrite bool_decide_eq_false_2 by apply isSent_undeclared.
    rewrite bool_decide_eq_true_2, lookup_insert_eq by done.
    simpl. by rewrite Hm. }
  assert (js_or (JBool b) (JBool false) = JBool b) as -> by (by destruct b).
  simpl. f_equal. apply map_eq. intros k. rewrite !cast_invoice_lookup.
  destruct (decide (k = "isSent")) as [->|Hne].
  - rewrite !lookup_insert_eq.
    rewrite bool_decide_eq_false_2 by apply isSent_undeclared.
    rewrite bool_decide_eq_true_2 by done. simpl. by rewrite Hm.
  - by rewrite !lookup_insert_ne.
Qed.

(** X13. A second identical request to PUT /api/students/project/:id,
    to save-bill or to send-bill leaves the store as the first one left
    it. *)
Theorem project_updates_idempotent
    (id : ObjectId) (body : JSObject) (st : Store) :
  (put_project id body (put_project id body st).2).2 =
    (put_project id body st).2 ∧
  (save_bill id body (save_bill id body st).2).2 = (save_bill id body st).2 ∧
  (send_bill id body (send_bill id body st).2).2 = (send_bill id body st).2.
Proof.
  assert (∀ (change : Project.t → option Project.t),
            (∀ p p', change p = Some p' → Project._id p' = Project._id p) →
            (∀ p p', change p = Some p' → change p' = Some p') →
            ∀ h : Store → Outcome * Store,
              (∀ st0, (h st0).2 =
                        match Project.findById id (projects st0) with
                        | Some p =>
                          match change p with
                          | Some p' => (save_and_respond p' st0).2
                          | None => st0
                          end
                        | None => st0
                        end) →
              (h (h st).2).2 = (h st).2) as Hidem.
  { intros change Hid Hch h Hh. rewrite (Hh st).
    destruct (Project.findById id (projects st)) as [p|] eqn:Hf.
    - pose proof (Project_findById_id _ _ _ Hf) as Hp.
      destruct (change p) as [p'|] eqn:Hc.
      + destruct (save_and_respond_again id p p' st Hf)
          as [Hf'|Hsame]; [by rewrite (Hid _ _ Hc)|..].
        * rewrite Hh, Hf', (Hch _ _ Hc). by apply (save_and_respond_same id).
        * rewrite Hsame, Hh, Hf, Hc. exact Hsame.
      + by rewrite Hh, Hf, Hc.
    - by rewrite Hh, Hf. }
  split; [|split].
  - apply (Hidem (λ p, Some (put_project_fields body p))).
    + by intros p p' [= <-].
    + intros p p' [= <-]. by rewrite put_project_fields_idem.
    + intros st0. unfold put_project.
      destruct (Project.findById id (projects st0)); [done|].
      apply not_found_store.
  - apply (Hidem
             (λ p, (λ invoice, Project.set_invoiceDetails invoice p)
                     <$> cast_invoice
                           (<["isSent" := js_or (invoice_isSent p)
                                                (JBool false)]> body))).
    + intros p p'. destruct (cast_invoice _); [|done]. by intros [= <-].
    + intros p p'.
      destruct (cast_invoice _) as [details|] eqn:Hc; [|done].
      intros [= <-]. unfold invoice_isSent at 1.
      cbn [Project.invoiceDetails Project.set_invoiceDetails].
      by rewrite (cast_invoice_again _ _ _ Hc).
    + intros st0. unfold save_bill, save_invoice.
      destruct (Project.findById id (projects st0)) as [p|];
        [|apply not_found_store].
      by destruct (cast_invoice _).
  - apply (Hidem
             (λ p, (λ invoice, Project.set_invoiceDetails invoice p)
                     <$> cast_invoice (<["isSent" := JBool true]> body))).
    + intros p p'. destruct (cast_invoice _); [|done]. by intros [= <-].
    + intros p p'. destruct (cast_invoice _) as [details|]; [|done].
      by intros [= <-].
    + intros st0. unfold send_bill, save_invoice.
      destruct (Project.findById id (projects st0)) as [p|];
        [|apply not_found_store].
      by destruct (cast_invoice _).
Qed.

(** X14. On documents that have the defaults of their schema in place,
    as every document that the handlers created has, a request that has
    nothing to apply leaves the store exactly as it is:
    PUT /api/students/project/:id with no amount and nothing truthy among
    the text fields, and PUT /api/students/:id with nothing truthy among
    name, username, password and assignedDeveloper and none of the four
    paths; the empty body is such a request. *)
Theorem ineffective_updates_change_nothing
    (id : ObjectId) (body : JSObject) (st : Store) :
  (∀ p, Project.findById id (projects st) = Some p → Project_complete p) →
  (∀ u, User.findById id (users st) = Some u → User_complete u) →
  (get body "amount" = JUndefined →
   (∀ k, k ∈ ["title"; "description"; "status"; "frontend"; "backend";
              "database"; "submissionDate"] →
         truthy (get body k) = false) →
   (put_project id body st).2 = st) ∧
  ((∀ k, k ∈ ["name"; "username"; "password"; "assignedDeveloper"] →
         truthy (get body k) = false) →
   (∀ k, k ∈ ["documentPath"; "pdfPath"; "zipPath"; "videoPath"] →
         get body k = JUndefined) →
   (put_student id body st).2 = st) ∧
  (put_project id ∅ st).2 = st ∧
  (put_student id ∅ st).2 = st.
Proof.
  intros _ _.
  assert (get body "amount" = JUndefined →
          (∀ k, k ∈ ["title"; "description"; "status"; "frontend"; "backend";
                     "database"; "submissionDate"] →
                truthy (get body k) = false) →
          ∀ p, put_project_fields body p = p) as Hproject.
  { intros Ha Hk p. unfold put_project_fields, js_or.
    rewrite Ha, !Hk by (repeat constructor). by destruct p. }
  assert ((∀ k, k ∈ ["name"; "username"; "password"; "assignedDeveloper"] →
                truthy (get body k) = false) →
          (∀ k, k ∈ ["documentPath"; "pdfPath"; "zipPath"; "videoPath"] →
                get body k = JUndefined) →
          ∀ u, put_student_fields body u = u) as Huser.
  { intros Hk Hp u. unfold put_student_fields, js_or, if_defined.
    rewrite !Hk, !Hp by (repeat constructor). by destruct u. }
  assert (∀ body0, (∀ p, put_project_fields body0 p = p) →
                   (put_project id body0 st).2 = st) as Hp.
  { intros body0 Hsame. unfold put_project.
    destruct (Project.findById id (projects st)) as [p|] eqn:Hf;
      [|apply not_found_store].
    rewrite Hsame. by apply (save_and_respond_same id). }
  assert (∀ body0, (∀ u, put_student_fields body0 u = u) →
                   (put_student id body0 st).2 = st) as Hu.
  { intros body0 Hsame. unfold put_student, User_save.
    destruct (User.findById id (users st)) as [u|] eqn:Hf;
      [|apply not_found_store].
    rewrite Hsame. destruct (User_rejects _ _); [done|].
    rewrite bool_decide_eq_false_2 by (intros Hn; by apply Hn). simpl.
    rewrite (User_replace_same id) by done. by destruct st. }
  split; [|split; [|split]].
  - intros Ha Hk. by apply Hp, Hproject.
  - intros Hk Hpaths. by apply Hu, Huser.
  - apply Hp. intros p. unfold put_project_fields, js_or, get.
    rewrite !lookup_empty. by destruct p.
  - apply Hu. intros u. unfold put_student_fields, js_or, if_defined, get.
    rewrite !lookup_empty. by destruct u.
Qed.

(** ** Names without an extension *)

Lemma extname_scan_no_dot path n sc :
  (∀ i, String.get i path ≠ Some "."%char) →
  startDot sc = -1 →
  startDot (extname_scan path n sc) = -1.
Proof.
  intros Hdot. revert sc. induction n as [|i IH]; intros sc Hs; [done|].
  simpl. destruct (String.get i path) as [code|] eqn:Hg; [|done].
  destruct (Ascii.eqb_spec code "/") as [->|Hslash].
  - destruct (negb (matchedSlash sc)); [done|]. by apply IH.
  - destruct (Ascii.eqb_spec code ".") as [->|_].
    + by destruct (Hdot i).
    + apply IH.
      destruct (endPos sc =? -1); simpl; by rewrite Hs.
Qed.

(** X15. A file whose original name has no dot is refused by the filter,
    whatever its mime type, and POST /api/students/:id/upload then hands
    the error of the filter to the framework and leaves the store alone,
    whether or not a user has the identifier: the filter runs before the
    user is looked up. *)
Theorem upload_without_extension_refused
    (id : ObjectId) (now : Z) (file : Upload) (st : Store) :
  (∀ i, String.get i (originalname file) ≠ Some "."%char) →
  fileFilter file = Some only_allowed ∧
  upload id now (Some file) st = (NextError only_allowed, st).
Proof.
  intros Hdot.
  assert (extname (originalname file) = "") as Hext.
  { unfold extname.
    by rewrite (extname_scan_no_dot _ _ ext_init Hdot eq_refl). }
  assert (fileFilter file = Some only_allowed) as Hfilter.
  { unfold fileFilter. by rewrite Hext. }
  split; [done|]. unfold upload. by rewrite Hfilter.
Qed.

(** ** Answers without a password, continued *)

(** X16. The answers of login, of the statistics, of the upload and of
    the listing, profile, update and registration handlers never carry a
    property named password, whatever the request and the store. *)
Theorem answers_without_password
    (identity : User.t) (id : ObjectId) (now : Z) (part : option Upload)
    (body : JSObject) (st : Store) :
  has_key "password" (body_of (login now body st).1) = false ∧
  has_key "password" (body_of (get_stats identity st).1) = false ∧
  has_key "password" (body_of (upload id now part st).1) = false ∧
  has_key "password" (body_of (get_students identity st).1) = false ∧
  has_key "password" (body_of (get_developers st).1) = false ∧
  has_key "password" (body_of (get_me identity st).1) = false ∧
  has_key "password" (body_of (put_student id body st).1) = false ∧
  has_key "password" (body_of (register now body st).1) = false.
Proof.
  split; [|split; [|split]].
  - unfold login. destruct (User.findOne_username _ _); [|done].
    destruct (comparePassword _ _) as [err|[|]]; [done| |done].
    apply not_true_is_false. intros Hh. cbn [body_of fst] in Hh.
    apply has_key_obj in Hh as (kv & Hin & Hkv).
    repeat (apply elem_of_cons in Hin as [->|Hin]; [by destruct Hkv|]).
    by apply elem_of_nil in Hin.
  - apply not_true_is_false. intros Hh. cbn [get_stats body_of fst] in Hh.
    apply has_key_obj in Hh as (kv & Hin & Hkv).
    repeat (apply elem_of_cons in Hin as [->|Hin]; [by destruct Hkv|]).
    by apply elem_of_nil in Hin.
  - assert (∀ file, has_key "password"
                      (body_of (upload_handler id file st).1) = false) as Hh.
    { intros file. unfold upload_handler.
      destruct (User.findById _ _);
        [|by destruct (not_found_answer "User" id "User not found" st)
                as (status & text & ->)].
      destruct file; [|done].
      by destruct (User_save _ _ _) as [err|[u st']]. }
    unfold upload. destruct part as [file|]; [|apply Hh].
    destruct (fileFilter file); [done|apply Hh].
  - apply selected_answers_without_password.
Qed.

(** ** The list of developers *)

(** X17. After a registration answered 201 the list of developers is the
    former list followed by the new user, and a student creation leaves
    it as it was. *)
Theorem developers_after_creation
    (identity : User.t) (now : Z) (body : JSObject) (st st' : Store)
    (answer : Json) :
  (register now body st = (Respond 201 answer, st') →
   ∃ u, User.find_developers (users st') =
          (User.find_developers (users st) ++ [u])%list ∧
        User.username u = get body "username" ∧
        get_developers st' =
          (Respond 200
             (JArr ((User_selected <$> User.find_developers (users st)) ++
                    [User_selected u])),
           st')) ∧
  (post_student identity body st = (Respond 201 answer, st') →
   User.find_developers (users st') = User.find_developers (users st)).
Proof.
  split.
  - intros Hr. apply register_created in Hr as (u & Hc & _).
    apply User_create_appends in Hc as (-> & _ & Hu & Hrole & _).
    exists u.
    assert (User.find_developers (users st ++ [u]) =
            (User.find_developers (users st) ++ [u])%list) as Hd.
    { unfold User.find_developers.
      by rewrite filter_app, filter_cons, decide_True, filter_nil. }
    split; [done|]. split; [done|].
    unfold get_developers. simpl. by rewrite Hd, fmap_app.
  - intros Hp. apply post_student_create in Hp as (u & Hc & _).
    apply User_create_appends in Hc as (-> & _ & _ & Hrole & _). simpl.
    unfold User.find_developers.
    rewrite filter_app, filter_cons, decide_False, filter_nil, app_nil_r;
      [done|congruence].
Qed.

(** ** Drafts do not send *)



End Further.

(** * Further runs on the reference platform *)

Section FurtherRuns.
#[local] Existing Instance reference.
#[local] Existing Instance reference_bcrypt.

(** A registration; then the creation of a student and the renaming of
    the developer; then another registration with the same username. *)
Lemma created_username_is_taken_witness :
  ∃ answer st',
    register t0 new_developer empty_store =
      (Respond 201 answer, st') ∧
    register t1 new_developer
      (account_run [CreateStudent dev1 new_student;
                    UpdateStudent "id0" renamed] st') =
      (message 400 "User already exists",
       account_run [CreateStudent dev1 new_student;
                    UpdateStudent "id0" renamed] st').
Proof.
  pose proof (created_username_is_taken dev1 t0 t1
                new_developer new_developer
                empty_store) as Htaken.
  assert (Forall keeps_usernames
                 [CreateStudent dev1 new_student;
                  UpdateStudent "id0" renamed]) as Hops.
  { constructor; [by exists "nina"|].
    constructor; [reflexivity|]. constructor. }
  destruct (register t0 new_developer empty_store)
    as [o st'] eqn:Hr.
  vm_compute in Hr. injection Hr as <- <-.
  eexists. eexists. split; [reflexivity|].
  apply (proj1 (Htaken _ _ "dana" "password1"
                       [CreateStudent dev1 new_student;
                        UpdateStudent "id0" renamed]
                       (or_introl eq_refl) eq_refl Hops eq_refl eq_refl
                       ltac:(vm_compute; lia))).
Defined.

(** A student creation, a registration under a username that is taken
    and a renaming. *)
Lemma creations_keep_usernames_distinct_witness :
  NoDup (User.username <$> users demo_store) ∧
  NoDup (User.username <$>
         users (account_run [CreateStudent dev1 new_student;
                             Register t0 new_developer;
                             UpdateStudent "s1" renamed] demo_store)).
Proof.
  assert (NoDup (User.username <$> users demo_store)) as Hnd.
  { vm_compute.
    repeat (constructor;
            [by intros Hin;
                repeat (apply elem_of_cons in Hin as [Hin|Hin];
                        [discriminate|]);
                apply elem_of_nil in Hin|]).
    constructor. }
  split; [exact Hnd|].
  apply creations_keep_usernames_distinct; [|exact Hnd].
  constructor; [by exists "nina"|].
  constructor; [by exists "dana"|].
  constructor; [reflexivity|]. constructor.
Defined.

Lemma created_password_is_hashed_witness :
  ∃ answer st' u,
    post_student dev1 new_student demo_store = (Respond 201 answer, st') ∧
    users st' = (users demo_store ++ [u])%list ∧
    User.password u = JStr (bcrypt_hash "secret123").
Proof.
  pose proof (created_password_is_hashed dev1 t0 new_student demo_store)
    as Hhashed.
  destruct (post_student dev1 new_student demo_store) as [o st'] eqn:Hp.
  vm_compute in Hp. injection Hp as <- <-.
  destruct (Hhashed _ _ "secret123" (or_intror eq_refl) eq_refl)
    as (u & Hus & _ & _ & Hpw).
  eexists. eexists. exists u. split; [reflexivity|]. split; [exact Hus|exact Hpw].
Defined.

Lemma password_hashed_only_when_changed_witness :
  User.findById "s1" (users demo_store) = Some stu1 ∧
  (∃ saved,
     User.findById "s1" (users (put_student "s1" new_password demo_store).2)
       = Some saved ∧
     User.password saved = JStr (bcrypt_hash "changed-it")) ∧
  (∃ saved,
     User.findById "s1" (users (put_student "s1" renamed demo_store).2)
       = Some saved ∧
     User.password saved = User.password stu1).
Proof.
  split; [reflexivity|].
  destruct (password_hashed_only_when_changed "s1" demo_store stu1 eq_refl)
    as (Hchanged & Hkept & _).
  split.
  - apply (Hchanged new_password "changed-it"); [reflexivity|discriminate|discriminate|reflexivity].
  - apply (Hkept renamed). reflexivity.
Defined.

Lemma users_stay_with_their_role_witness :
  User.findById "d1" (users demo_store) = Some dev1 ∧
  ∃ u', User.findById "d1"
          (users (account_run
                    [UpdateStudent "d1" self_assigned;
                     CreateStudent dev1 new_student] demo_store)) = Some u' ∧
        User.role u' = developer.
Proof.
  split; [reflexivity|].
  exact (users_stay_with_their_role
           [UpdateStudent "d1" self_assigned; CreateStudent dev1 new_student]
           demo_store "d1" dev1 eq_refl).
Defined.

(** A login without a password under a username that a user has, and a
    login under a username that no user has. *)
Lemma login_answers_witness :
  get no_password "username" = JStr "dana" ∧
  (JStr "dana" ∈ User.username <$> users demo_store) ∧
  (∀ pw, get no_password "password" ≠ JStr pw) ∧
  status_of (login t0 no_password demo_store).1 = Some 500%nat ∧
  get new_student "username" = JStr "nina" ∧
  (JStr "nina" ∉ User.username <$> users demo_store) ∧
  login t0 new_student demo_store =
    (message 401 "Invalid username or password", demo_store).
Proof.
  assert (JStr "dana" ∈ User.username <$> users demo_store) as Hknown.
  { vm_compute. apply list_elem_of_here. }
  assert (JStr "nina" ∉ User.username <$> users demo_store) as Hunknown.
  { vm_compute. intros Hin.
    repeat (apply elem_of_cons in Hin as [Hin|Hin]; [discriminate|]).
    by apply elem_of_nil in Hin. }
  destruct (proj2 (login_answers t0 no_password demo_store)
                  "dana" eq_refl)
    as (_ & H500 & _).
  destruct (proj2 (login_answers t0 new_student demo_store)
                  "nina" eq_refl)
    as (H401 & _).
  split; [reflexivity|]. split; [exact Hknown|]. split; [discriminate|].
  split; [apply (H500 Hknown); discriminate|].
  split; [reflexivity|]. split; [exact Hunknown|exact (H401 Hunknown)].
Defined.


Lemma changed_password_logs_in_witness :
  User.findById "s1" (users demo_store) = Some stu1 ∧
  User.findOne_username (User.username stu1) (users demo_store) = Some stu1 ∧
  ∃ saved,
    User.findById "s1" (users (put_student "s1" new_password demo_store).2)
      = Some saved ∧
    status_of (login t0 sam_login (put_student "s1" new_password demo_store).2).1
      = Some 200%nat.
Proof.
  split; [reflexivity|]. split; [reflexivity|].
  destruct (changed_password_logs_in "s1" demo_store stu1
              t0 new_password
              sam_login "changed-it" eq_refl eq_refl eq_refl
              ltac:(discriminate) ltac:(discriminate) eq_refl eq_refl
              eq_refl eq_refl eq_refl) as (saved & Hf & Hlogin).
  exists saved. split; [exact Hf|]. by rewrite Hlogin.
Defined.

Lemma assigned_project_is_pending_witness :
  get new_project "status" = JStr "Completed" ∧
  ∃ answer st' p,
    assign_project new_project demo_store = (Respond 201 answer, st') ∧
    projects st' = (projects demo_store ++ [p])%list ∧
    Project.status p = JStr "Pending" ∧
    Project.amount p = JNum (Num 250).
Proof.
  split; [reflexivity|].
  pose proof (assigned_project_is_pending new_project demo_store) as Hassigned.
  destruct (assign_project new_project demo_store) as [o st'] eqn:Ha.
  vm_compute in Ha. injection Ha as <- <-.
  destruct (Hassigned _ _ eq_refl) as (p & _ & Hps & _ & Hstatus & _ & Hamount & _).
  eexists. eexists. exists p. split; [reflexivity|].
  split; [exact Hps|]. split; [exact Hstatus|exact Hamount].
Defined.


Lemma post_student_counts_witness :
  ∃ answer st',
    post_student dev1 new_student demo_store = (Respond 201 answer, st') ∧
    totalStudents (globalStats dev1 st') = 3%nat ∧
    totalStudents (globalStats dev2 st') = 1%nat.
Proof.
  pose proof (post_student_counts dev1 new_student demo_store) as Hcounts.
  destruct (post_student dev1 new_student demo_store) as [o st'] eqn:Hp.
  vm_compute in Hp. injection Hp as <- <-.
  destruct (Hcounts _ _ eq_refl) as (Hmine & Hothers).
  eexists. eexists. split; [reflexivity|]. split.
  - rewrite Hmine. reflexivity.
  - rewrite (Hothers dev2); [reflexivity|discriminate].
Defined.

(** A project as assign-project creates it and a user as the handlers
    create it, under requests that have nothing for them. *)
Lemma ineffective_updates_change_nothing_witness :
  Project.findById "p6" (projects billing_store) = Some pro6 ∧
  Project_complete pro6 ∧
  get renamed "amount" = JUndefined ∧
  (put_project "p6" renamed billing_store).2 = billing_store ∧
  User.findById "s1" (users billing_store) = Some stu1 ∧
  User_complete stu1 ∧
  (put_student "s1" ∅ billing_store).2 = billing_store.
Proof.
  assert (Project_complete pro6) as Hproject.
  { split; [repeat (constructor; [discriminate|]); constructor|].
    eexists. split; [reflexivity|]. split; vm_compute; discriminate. }
  assert (User_complete stu1) as Huser.
  { repeat (constructor; [discriminate|]). constructor. }
  split; [reflexivity|]. split; [exact Hproject|]. split; [reflexivity|].
  split.
  - apply (proj1 (ineffective_updates_change_nothing
                    "p6" renamed billing_store
                    ltac:(intros p Hf; vm_compute in Hf;
                          injection Hf as <-; exact Hproject)
                    ltac:(intros u Hf; vm_compute in Hf; discriminate Hf)));
      [reflexivity|].
    intros k Hk.
    repeat (apply elem_of_cons in Hk as [->|Hk]; [reflexivity|]).
    by apply elem_of_nil in Hk.
  - split; [reflexivity|]. split; [exact Huser|].
    apply (ineffective_updates_change_nothing
             "s1" ∅ billing_store
             ltac:(intros p Hf; vm_compute in Hf; discriminate Hf)
             ltac:(intros u Hf; vm_compute in Hf;
                   injection Hf as <-; exact Huser)).
Defined.

Lemma upload_without_extension_refused_witness :
  (∀ i, String.get i (originalname notes) ≠ Some "."%char) ∧
  upload "nobody" 1700000000000 (Some notes) demo_store =
    (NextError only_allowed, demo_store).
Proof.
  assert (∀ i, String.get i (originalname notes) ≠ Some "."%char) as Hdot.
  { intros i. do 5 (destruct i as [|i]; [discriminate|]). discriminate. }
  split; [exact Hdot|].
  exact (proj2 (upload_without_extension_refused "nobody" 1700000000000
                  notes demo_store Hdot)).
Defined.

Lemma developers_after_creation_witness :
  ∃ answer st' u,
    register t0 new_developer empty_store = (Respond 201 answer, st') ∧
    User.find_developers (users st') = [u] ∧
    User.username u = JStr "dana".
Proof.
  pose proof (developers_after_creation dev1 t0 new_developer
                empty_store)
    as Hlist.
  destruct (register t0 new_developer empty_store) as [o st'] eqn:Hr.
  vm_compute in Hr. injection Hr as <- <-.
  destruct (proj1 (Hlist _ _) eq_refl) as (u & Hd & Hu & _).
  eexists. eexists. exists u. split; [reflexivity|].
  split; [exact Hd|exact Hu].
Defined.


End FurtherRuns.
